(** * SP-Portal quote calculators: a shallow embedding

    The development embeds the two JavaScript pricing engines of the
    repository,

      - [src/StateApplications/ny/quote-calculator.js]  (module [NY]),
      - [src/quote-calculator.js]                       (module [Legacy]),

    and states the properties of the quote engine over them.

    Numbers.  A JavaScript number is modelled as an exact rational [Q]:
    rounding, overflow to [Infinity] and signed zeros are outside the model.
    [NaN] only ever comes out of [parseInt] / [parseFloat], where the source
    removes it at once with [|| 0]; it is modelled by [None].  Equality of
    amounts is [Qeq] ([==]).  Module [Binary64] runs the arithmetic of the
    rate-card engine once more in IEEE double precision, for the amounts the
    specification names to the cent.  Properties that relate
    computed amounts are stated in forms that rounding leaves intact: which
    expression a field holds, which branch is taken, and inequalities that a
    monotone rounding of every operation preserves.

    Effects.  [console.error] output and thrown exceptions are kept: a
    computation yields the lines it logged and either a value or an
    exception (type [js]). *)

From Stdlib Require Import ZArith QArith Qround Qabs Qminmax Bool String Ascii List Lia Lqa.
From Stdlib Require Import DecimalString.
From Stdlib Require DecimalPos.
From Stdlib Require Import Floats.PrimFloat.
From Stdlib Require Numbers.Cyclic.Int63.Uint63.
Import ListNotations.

Local Open Scope string_scope.

(** ** JavaScript values and coercions *)

Module JS.

Inductive value : Type :=
| Undefined
| Null
| Bool (b : bool)
| Num (q : Q)
| Str (s : string).

(** ToBoolean.  (There is no NaN and no negative zero among [Num].) *)
Definition truthy (v : value) : bool :=
  match v with
  | Undefined | Null => false
  | Bool b => b
  | Num q => negb (Qeq_bool q 0)
  | Str s => negb (s =? "")
  end.

(** [a || b] on values. *)
Definition or (a b : value) : value := if truthy a then a else b.

(** [a === b]. *)
Definition strictEq (a b : value) : bool :=
  match a, b with
  | Undefined, Undefined | Null, Null => true
  | Bool x, Bool y => Bool.eqb x y
  | Num x, Num y => Qeq_bool x y
  | Str x, Str y => (x =? y)
  | _, _ => false
  end.

(** [n || 0] where [n] is the result of a parse ([None] is NaN). *)
Definition orZero (n : option Q) : Q :=
  match n with
  | Some q => if Qeq_bool q 0 then 0%Q else q
  | None => 0%Q
  end.

(** [x || 0] on a number. *)
Definition numOrZero (x : Q) : Q := if Qeq_bool x 0 then 0%Q else x.

(** [a < b] on numbers. *)
Definition ltb (a b : Q) : bool := negb (Qle_bool b a).

(** *** Strings of digits *)

Definition isWhite (c : ascii) : bool :=
  let n := N_of_ascii c in
  ((n =? 32) || ((9 <=? n) && (n <=? 13)))%N.

Fixpoint skipWhite (s : string) : string :=
  match s with
  | String c r => if isWhite c then skipWhite r else s
  | EmptyString => s
  end.

(** Value of a character as a digit in the given radix (10 or 16). *)
Definition digitValue (radix : Z) (c : ascii) : option Z :=
  let n := Z.of_N (N_of_ascii c) in
  if ((48 <=? n) && (n <=? 57))%Z then Some (n - 48)%Z
  else if (radix =? 16)%Z && ((97 <=? n) && (n <=? 102))%Z then Some (n - 87)%Z
  else if (radix =? 16)%Z && ((65 <=? n) && (n <=? 70))%Z then Some (n - 55)%Z
  else None.

(** Longest prefix of digits: its value (if it is not empty), how many digits
    were read, and the rest of the string. *)
Fixpoint readDigits (radix : Z) (s : string) (acc : option Z) (len : nat)
  : option Z * nat * string :=
  match s with
  | String c r =>
      match digitValue radix c with
      | Some d =>
          readDigits radix r
            (Some (radix * match acc with Some a => a | None => 0 end + d)%Z)
            (S len)
      | None => (acc, len, s)
      end
  | EmptyString => (acc, len, s)
  end.

(** Optional sign: the factor and the rest of the string. *)
Definition readSign (s : string) : Z * string :=
  match s with
  | String "-" r => ((-1)%Z, r)
  | String "+" r => (1%Z, r)
  | _ => (1%Z, s)
  end.

(** *** parseInt *)

(** [parseInt(string)], no radix argument: leading white space, a sign, an
    optional [0x] prefix, then the longest prefix of digits. *)
Definition parseIntString (s : string) : option Q :=
  let (sign, s1) := readSign (skipWhite s) in
  let (radix, s2) :=
    match s1 with
    | String "0" (String "x" r) | String "0" (String "X" r) => (16%Z, r)
    | _ => (10%Z, s1)
    end in
  match readDigits radix s2 None 0 with
  | (Some n, _, _) => Some (inject_Z (sign * n))
  | (None, _, _) => None
  end.

(** First decimal digit of a positive integer. *)
Definition firstDigit (p : positive) : Z :=
  match Pos.to_uint p with
  | Decimal.D1 _ => 1 | Decimal.D2 _ => 2 | Decimal.D3 _ => 3
  | Decimal.D4 _ => 4 | Decimal.D5 _ => 5 | Decimal.D6 _ => 6
  | Decimal.D7 _ => 7 | Decimal.D8 _ => 8 | Decimal.D9 _ => 9
  | _ => 0
  end%Z.

(** First significant digit of a positive rational below 1: scale by ten
    until the integer part appears. *)
Fixpoint firstFractionDigit (fuel : nat) (a : Q) : Z :=
  match fuel with
  | O => 0%Z
  | S k =>
      let a10 := (10 * a)%Q in
      if Qle_bool 1 a10 then Qfloor a10 else firstFractionDigit k a10
  end.

(** [parseInt(number)] is [parseInt(String(number))].  A number prints in
    plain decimal notation when [1e-6 <= |x| < 1e21], and [parseInt] then
    reads its integer part; outside that range it prints in exponent notation,
    of which [parseInt] reads the first digit only. *)
Definition parseIntNumber (x : Q) : option Q :=
  let a := Qabs x in
  let sign := if Qle_bool 0 x then 1%Z else (-1)%Z in
  if Qeq_bool x 0 then Some 0%Q
  else if Qle_bool (10 ^ 21) a then
    Some (inject_Z (sign * match Qfloor a with Zpos p => firstDigit p | _ => 0 end))
  else if Qle_bool (1 # 1000000) a then
    Some (inject_Z (Z.quot (Qnum x) (Zpos (Qden x))))
  else
    Some (inject_Z (sign * firstFractionDigit (Pos.size_nat (Qden a)) a)).

Definition parseInt (v : value) : option Q :=
  match v with
  | Str s => parseIntString s
  | Num x => parseIntNumber x
  | Undefined | Null | Bool _ => None
  end.

(** *** parseFloat *)

(** [parseFloat(string)]: leading white space, a sign, then the longest
    prefix that is a decimal literal [digits [. digits] [e [sign] digits]]
    with at least one digit before the exponent.  (The literal [Infinity] has
    no value in the model and reads as NaN.) *)
Definition parseFloatString (s : string) : option Q :=
  let (sign, s1) := readSign (skipWhite s) in
  let '(ip, _, s2) := readDigits 10 s1 None 0 in
  let '(fp, flen, s3) :=
    match s2 with
    | String "." r => readDigits 10 r None 0
    | _ => (None, O, s2)
    end in
  let expo :=
    match s3 with
    | String "e" r | String "E" r =>
        let (esign, r1) := readSign r in
        match readDigits 10 r1 None 0 with
        | (Some e, _, _) => (esign * e)%Z
        | (None, _, _) => 0%Z
        end
    | _ => 0%Z
    end in
  match ip, fp with
  | None, None => None
  | _, _ =>
      let i := match ip with Some n => n | None => 0%Z end in
      let f := match fp with Some n => n | None => 0%Z end in
      Some (inject_Z sign
            * (inject_Z i + inject_Z f / inject_Z (10 ^ Z.of_nat flen))
            * 10 ^ expo)%Q
  end.

Definition parseFloat (v : value) : option Q :=
  match v with
  | Str s => parseFloatString s
  | Num x => Some x
  | Undefined | Null | Bool _ => None
  end.

(** [Math.round]: the nearest integer, ties towards plus infinity. *)
Definition Math_round (x : Q) : Q := inject_Z (Qfloor (x + (1 # 2))).

(** *** Number.prototype.toFixed *)

(** The decimal digits of a natural number. *)
Definition digitsOf (n : N) : string := NilEmpty.string_of_uint (N.to_uint n).

Definition digitChar (n : N) : ascii := ascii_of_N (48 + n).

(** [x.toFixed(2)]: the sign, then the integer [n] nearest to [|x| * 100] (the
    larger one on a tie) printed with a point before its last two digits.
    From 1e21 upwards [toFixed] prints as [String(x)] does, in exponent
    notation, which the model does not cover ([None]). *)
Definition toFixed2 (x : Q) : option string :=
  if Qle_bool (10 ^ 21) (Qabs x) then None
  else
    let n := Z.to_N (Qfloor (Qabs x * 100 + (1 # 2))) in
    Some ((if ltb x 0 then "-" else "")
          ++ digitsOf (n / 100) ++ "."
          ++ String (digitChar ((n mod 100) / 10)) (String (digitChar (n mod 10)) "")).

(** *** The regular expression of [formatCurrency] *)

Definition isDigit (c : ascii) : bool :=
  let n := N_of_ascii c in ((48 <=? n) && (n <=? 57))%N.

(** [\w]: a letter, a digit or an underscore. *)
Definition isWordChar (c : ascii) : bool :=
  let n := N_of_ascii c in
  (((48 <=? n) && (n <=? 57)) || ((65 <=? n) && (n <=? 90))
   || ((97 <=? n) && (n <=? 122)) || (n =? 95))%N.

(** How many digits the string starts with. *)
Fixpoint digitRun (s : string) : nat :=
  match s with
  | String c r => if isDigit c then S (digitRun r) else O
  | EmptyString => O
  end.

(** The lookahead [(?=(\d{3})+(?!\d))] in front of [s]: some number of groups
    of three digits and then no digit, that is, a run of digits whose length
    is a positive multiple of three. *)
Definition groupsOfThreeAhead (s : string) : bool :=
  ((3 <=? digitRun s) && (digitRun s mod 3 =? 0))%nat.

(** Whether the character before a position is a word character; there is
    none at the start of the string. *)
Definition wordBefore (prev : option ascii) : bool :=
  match prev with
  | Some c => isWordChar c
  | None => false
  end.

(** [s.replace(/\B(?=(\d{3})+(?!\d))/g, ',')], the string being read from
    left to right and [prev] the character just passed: a comma goes in front
    of a character when the position is not a word boundary and the lookahead
    succeeds.  (At the end of the string the lookahead fails.) *)
Fixpoint replaceThousands (prev : option ascii) (s : string) : string :=
  match s with
  | EmptyString => EmptyString
  | String c r =>
      let rest := String c (replaceThousands (Some c) r) in
      if Bool.eqb (wordBefore prev) (isWordChar c) && groupsOfThreeAhead s
      then String "," rest
      else rest
  end.

End JS.

(** ** Computations: console output and exceptions *)

Inductive exn : Type :=
| TypeError.

(** A line written by [console.error(message, argument)]. *)
Record consoleLine : Type := ConsoleError { message : string; argument : JS.value }.

Inductive completion (A : Type) : Type :=
| Normal (a : A)
| Throw (e : exn).
Arguments Normal {A} a.
Arguments Throw {A} e.

(** The lines logged, in order, and how the call completed. *)
Definition js (A : Type) : Type := (list consoleLine * completion A)%type.

Definition ret {A} (a : A) : js A := ([], Normal a).
Definition throw {A} (e : exn) : js A := ([], Throw e).
Definition console_error (msg : string) (arg : JS.value) : js unit :=
  ([ConsoleError msg arg], Normal tt).

Definition bind {A B} (m : js A) (f : A -> js B) : js B :=
  match m with
  | (l, Normal a) => let (l', r) := f a in ((l ++ l')%list, r)
  | (l, Throw e) => (l, Throw e)
  end.

Definition mapjs {A B} (f : A -> B) (m : js A) : js B :=
  bind m (fun a => ret (f a)).

Notation "x <- m ;; k" := (bind m (fun x => k))
  (at level 61, m at next level, right associativity).
Notation "m ;;; k" := (bind m (fun _ => k))
  (at level 61, right associativity).

(** The call returns (does not throw) an amount equal to [v]. *)
Definition returnsAmount (m : js Q) (v : Q) : Prop :=
  match snd m with
  | Normal q => q == v
  | Throw _ => False
  end.

(** ** The form object

    The raw [formData] object handed over by the wizard: every property may be
    a string, a checkbox state, a number, or absent ([Undefined]). *)

Module FormData.

Record t : Type := mk {
  maleEmployees : JS.value;
  femaleEmployees : JS.value;
  totalEmployees : JS.value;
  dblBenefits : JS.value;
  billingOption : JS.value;
  inHospitalRider : JS.value;
  annualPayroll : JS.value;
  totalPayroll : JS.value;
  employeesOverNYSAWW : JS.value;
  payrollBelowNYSAWW : JS.value;
  termLife15k : JS.value;
  eap : JS.value;
  nurseHelpline : JS.value;
  adddBenefit : JS.value;
  addBenefit : JS.value
}.

(** The object literal [{}]. *)
Definition empty : t :=
  mk JS.Undefined JS.Undefined JS.Undefined JS.Undefined JS.Undefined
     JS.Undefined JS.Undefined JS.Undefined JS.Undefined JS.Undefined
     JS.Undefined JS.Undefined JS.Undefined JS.Undefined JS.Undefined.

(** [{ ...formData, maleEmployees: m, femaleEmployees: f }]. *)
Definition withCounts (fd : t) (m f : JS.value) : t :=
  mk m f (totalEmployees fd) (dblBenefits fd) (billingOption fd)
     (inHospitalRider fd) (annualPayroll fd) (totalPayroll fd)
     (employeesOverNYSAWW fd) (payrollBelowNYSAWW fd) (termLife15k fd)
     (eap fd) (nurseHelpline fd) (adddBenefit fd) (addBenefit fd).

End FormData.

(** [v === 'on' || v === true], the test applied to every checkbox. *)
Definition checked (v : JS.value) : bool :=
  JS.strictEq v (JS.Str "on") || JS.strictEq v (JS.Bool true).

(** Properties every object literal inherits from [Object.prototype]. *)
Definition Object_prototype_keys : list string :=
  [ "constructor"; "__proto__"; "hasOwnProperty"; "isPrototypeOf";
    "propertyIsEnumerable"; "toLocaleString"; "toString"; "valueOf";
    "__defineGetter__"; "__defineSetter__"; "__lookupGetter__";
    "__lookupSetter__" ].

Fixpoint assoc {A} (k : string) (l : list (string * A)) : option A :=
  match l with
  | (k', a) :: r => if k =? k' then Some a else assoc k r
  | [] => None
  end.

Definition memString (k : string) (l : list string) : bool :=
  existsb (String.eqb k) l.

(** What [table[key]] finds: an own property, something inherited from
    [Object.prototype] (a function or the prototype itself: truthy, and without
    any property of the table's entries), or nothing ([undefined]). *)
Inductive property (A : Type) : Type :=
| Own (a : A)
| Inherited
| Missing.
Arguments Own {A} a.
Arguments Inherited {A}.
Arguments Missing {A}.

(** The property key a value denotes.  The string form of a number is never
    one of the names in play (they are all alphabetic), so it is left out. *)
Definition propertyKey (v : JS.value) : option string :=
  match v with
  | JS.Str s => Some s
  | JS.Bool true => Some "true"
  | JS.Bool false => Some "false"
  | JS.Undefined => Some "undefined"
  | JS.Null => Some "null"
  | JS.Num _ => None
  end.

Definition getProperty {A} (table : list (string * A)) (key : JS.value) : property A :=
  match propertyKey key with
  | Some k =>
      match assoc k table with
      | Some a => Own a
      | None => if memString k Object_prototype_keys then Inherited else Missing
      end
  | None => Missing
  end.

(** ** The NY rate-card engine: [src/StateApplications/ny/quote-calculator.js] *)

Module NY.

Local Open Scope Q_scope.

Record Rates : Type := mkRates {
  male : Q;
  female : Q;
  maleWithHospital : Q;
  femaleWithHospital : Q
}.

Record TierRates : Type := mkTier { annual : Rates; quarterly : Rates }.

(** Per capita monthly rates of the rate card. *)
Definition DBL_RATES : list (string * TierRates) :=
  [ ("statutory",
      mkTier (mkRates 1.50 3.25 1.65 3.55) (mkRates 1.85 3.90 1.95 4.25));
    ("enriched1.5x",
      mkTier (mkRates 2.10 4.35 2.25 4.75) (mkRates 2.45 5.25 2.60 5.70));
    ("enriched2x",
      mkTier (mkRates 2.55 5.60 2.75 6.00) (mkRates 3.15 6.70 3.30 7.20));
    ("enriched3x",
      mkTier (mkRates 3.90 8.55 4.15 9.00) (mkRates 4.75 10.20 4.95 10.75));
    ("enriched4x",
      mkTier (mkRates 7.60 16.65 8.40 17.15) (mkRates 9.25 19.80 9.45 20.40));
    ("enriched5x",
      mkTier (mkRates 9.75 21.40 10.80 21.90) (mkRates 11.90 25.50 12.10 26.05)) ].

Module PFL_RATE.
Definition percentOfPayroll : Q := 0.00432.
Definition annualCapPerEmployee : Q := 411.91.
Definition nysaww : Q := 95348.76.
End PFL_RATE.

Module MINIMUMS.
Definition annualDBL : Q := 125.00.
Definition quarterlyDBL : Q := 35.00.
End MINIMUMS.

Module OPTIONAL_BENEFITS.
Definition addd50k : Q := 1.00.
Definition addd100k : Q := 2.00.
Definition termLife15k : Q := 36 / 12.
Definition eap : Q := 36 / 12.
Definition nurseHelpline : Q := 54 / 12.
End OPTIONAL_BENEFITS.

(** [calculateDBLPremium(maleCount, femaleCount, benefitTier, billingType,
    includeHospital)]: the monthly DBL premium.

    [DBL_RATES[tier]] is an ordinary property read.  For a key that is no
    property at all it is [undefined] and the guard returns 0 after logging;
    for a key found on [Object.prototype] it is truthy, the guard is passed,
    [DBL_RATES[tier][billing]] is [undefined] and reading a rate off it throws
    a TypeError. *)
Definition calculateDBLPremium (maleCount femaleCount : Q)
    (benefitTier billingType : JS.value) (includeHospital : bool) : js Q :=
  let tier := JS.or benefitTier (JS.Str "statutory") in
  let quarterlyBilling := JS.strictEq billingType (JS.Str "quarterly") in
  match getProperty DBL_RATES tier with
  | Missing =>
      console_error "Invalid benefit tier:" tier ;;;
      ret 0
  | Inherited => throw TypeError
  | Own tierRates =>
      let rates := if quarterlyBilling then quarterly tierRates else annual tierRates in
      let monthlyPremium :=
        if includeHospital then
          (maleCount * maleWithHospital rates) + (femaleCount * femaleWithHospital rates)
        else
          (maleCount * male rates) + (femaleCount * female rates) in
      ret monthlyPremium
  end.

Module Pfl.
Record breakdown_t : Type := mkBreakdown {
    employeesOverCap : Q;
    pflFromOverCap : Q;
    payrollBelowCap : Q;
    pflFromBelowCap : Q
  }.
Record t : Type := mk {
    annualTotal : Q;
    monthlyTotal : Q;
    annualPerEmployee : Q;
    monthlyPerEmployee : Q;
    breakdown : breakdown_t
  }.
End Pfl.

(** [calculatePFLPremium(employeesOverNYSAWW, payrollBelowNYSAWW, employeeCount)]. *)
Definition calculatePFLPremium (employeesOverNYSAWW payrollBelowNYSAWW employeeCount : Q)
  : Pfl.t :=
  let pflFromOverCap := JS.numOrZero employeesOverNYSAWW * PFL_RATE.annualCapPerEmployee in
  let payrollBelow := JS.numOrZero payrollBelowNYSAWW in
  let pflFromBelowCap := payrollBelow * PFL_RATE.percentOfPayroll in
  let annualPFL := pflFromOverCap + pflFromBelowCap in
  let totalEmployeeCount := JS.numOrZero employeeCount in
  Pfl.mk annualPFL
         (annualPFL / 12)
         (if JS.ltb 0 totalEmployeeCount then annualPFL / totalEmployeeCount else 0)
         (if JS.ltb 0 totalEmployeeCount then annualPFL / 12 / totalEmployeeCount else 0)
         (Pfl.mkBreakdown (JS.numOrZero employeesOverNYSAWW) pflFromOverCap
                          payrollBelow pflFromBelowCap).

Module Selections.
Record t : Type := mk {
    termLife15k : bool;
    eap : bool;
    nurseHelpline : bool;
    addd50k : bool;
    addd100k : bool
  }.
End Selections.

(** [calculateOptionalBenefits(employeeCount, selections)]: the running total
    is increased once per selected benefit, in the order of the source. *)
Definition calculateOptionalBenefits (employeeCount : Q) (selections : Selections.t) : Q :=
  let monthlyTotal := 0 in
  let monthlyTotal :=
    if Selections.termLife15k selections
    then monthlyTotal + employeeCount * OPTIONAL_BENEFITS.termLife15k else monthlyTotal in
  let monthlyTotal :=
    if Selections.eap selections
    then monthlyTotal + employeeCount * OPTIONAL_BENEFITS.eap else monthlyTotal in
  let monthlyTotal :=
    if Selections.nurseHelpline selections
    then monthlyTotal + employeeCount * OPTIONAL_BENEFITS.nurseHelpline else monthlyTotal in
  let monthlyTotal :=
    if Selections.addd50k selections
    then monthlyTotal + employeeCount * OPTIONAL_BENEFITS.addd50k else monthlyTotal in
  let monthlyTotal :=
    if Selections.addd100k selections
    then monthlyTotal + employeeCount * OPTIONAL_BENEFITS.addd100k else monthlyTotal in
  monthlyTotal.

(** [applyMinimums(monthlyPremium, billingType)]. *)
Definition applyMinimums (monthlyPremium : Q) (billingType : JS.value) : Q :=
  if JS.strictEq billingType (JS.Str "annual") then
    let annualPremium := monthlyPremium * 12 in
    if JS.ltb annualPremium MINIMUMS.annualDBL then MINIMUMS.annualDBL / 12
    else monthlyPremium
  else if JS.strictEq billingType (JS.Str "quarterly") then
    let quarterlyPremium := monthlyPremium * 3 in
    if JS.ltb quarterlyPremium MINIMUMS.quarterlyDBL then MINIMUMS.quarterlyDBL / 3
    else monthlyPremium
  else monthlyPremium.

(** The result object of [calculateQuote].  Properties that only some
    return statements set are optional ([None]: the property is absent). *)

Module Breakdown.
Record t : Type := mk {
  dblPremium : Q;
  pflPremium : Q;
  optionalCost : Q;
  totalCost : Q
}.
End Breakdown.

Record PerEmployeeBreakdown : Type := mkPerEmployee {
  dblPerEmployee : Q;
  pflPerEmployee : Q;
  optionalPerEmployee : Q;
  totalPerEmployee : Q
}.

Module EmployeeInfo.
Record t : Type := mk { male : Q; female : Q; total : Q }.
End EmployeeInfo.

Module GenderRatio.
Record t : Type := mk { male : Q; female : Q }.
End GenderRatio.

Record QuoteResult : Type := mkQuote {
  dblMonthly : Q;
  pflMonthly : Q;
  optionalMonthly : Q;
  totalMonthly : Q;
  displayAmount : Q;
  billingPeriod : string;
  periodMultiplier : option Q;
  breakdown : Breakdown.t;
  perEmployeeBreakdown : option PerEmployeeBreakdown;
  employeeInfo : option EmployeeInfo.t;
  isEstimated : option bool;
  estimatedGenderRatio : option GenderRatio.t
}.

(** [calculateQuote(formData)]. *)
Definition calculateQuote (formData : FormData.t) : js QuoteResult :=
  let maleCount := JS.orZero (JS.parseInt (FormData.maleEmployees formData)) in
  let femaleCount := JS.orZero (JS.parseInt (FormData.femaleEmployees formData)) in
  let totalEmployees := maleCount + femaleCount in
  if Qeq_bool totalEmployees 0 then
    ret (mkQuote 0 0 0 0 0 "year" None (Breakdown.mk 0 0 0 0) None None None None)
  else
    let benefitTier := JS.or (FormData.dblBenefits formData) (JS.Str "statutory") in
    let billingType := JS.or (FormData.billingOption formData) (JS.Str "annual") in
    let includeHospital := checked (FormData.inHospitalRider formData) in
    let annualPayroll := JS.orZero (JS.parseFloat (FormData.annualPayroll formData)) in
    dblMonthly <- calculateDBLPremium maleCount femaleCount benefitTier billingType
                                      includeHospital ;;
    let dblMonthly := applyMinimums dblMonthly billingType in
    let employeesOverNYSAWW :=
      JS.orZero (JS.parseInt (FormData.employeesOverNYSAWW formData)) in
    let payrollBelowNYSAWW :=
      JS.orZero (JS.parseFloat (FormData.payrollBelowNYSAWW formData)) in
    let pfl := calculatePFLPremium employeesOverNYSAWW payrollBelowNYSAWW totalEmployees in
    let pflMonthly := Pfl.monthlyTotal pfl in
    let optionalSelections :=
      Selections.mk (checked (FormData.termLife15k formData))
                    (checked (FormData.eap formData))
                    (checked (FormData.nurseHelpline formData))
                    (JS.strictEq (FormData.adddBenefit formData) (JS.Str "50000"))
                    (JS.strictEq (FormData.adddBenefit formData) (JS.Str "100000")) in
    let optionalMonthly := calculateOptionalBenefits totalEmployees optionalSelections in
    let totalMonthly := dblMonthly + pflMonthly + optionalMonthly in
    let billingPeriod :=
      if JS.strictEq billingType (JS.Str "quarterly") then "quarter" else "year" in
    let periodMultiplier := if (billingPeriod =? "year")%string then 12 else 3 in
    let displayAmount := totalMonthly * periodMultiplier in
    ret (mkQuote dblMonthly pflMonthly optionalMonthly totalMonthly displayAmount
           billingPeriod (Some periodMultiplier)
           (Breakdown.mk (dblMonthly * periodMultiplier) (pflMonthly * periodMultiplier)
                         (optionalMonthly * periodMultiplier) displayAmount)
           (Some (mkPerEmployee (dblMonthly / totalEmployees) (pflMonthly / totalEmployees)
                                (optionalMonthly / totalEmployees)
                                (totalMonthly / totalEmployees)))
           (Some (EmployeeInfo.mk maleCount femaleCount totalEmployees))
           None None).

(** [quote.isEstimated = true; quote.estimatedGenderRatio = {...}]. *)
Definition markEstimated (maleRatio : Q) (quote : QuoteResult) : QuoteResult :=
  mkQuote (dblMonthly quote) (pflMonthly quote) (optionalMonthly quote)
          (totalMonthly quote) (displayAmount quote) (billingPeriod quote)
          (periodMultiplier quote) (breakdown quote) (perEmployeeBreakdown quote)
          (employeeInfo quote)
          (Some true)
          (Some (GenderRatio.mk maleRatio (1 - maleRatio))).

(** [calculateQuoteWithEstimate(formData, maleRatio = 0.5)]; [None] is an
    omitted second argument. *)
Definition calculateQuoteWithEstimate (formData : FormData.t) (maleRatioArg : option Q)
  : js QuoteResult :=
  let maleRatio := match maleRatioArg with Some r => r | None => 0.5 end in
  let totalEmployees := JS.orZero (JS.parseInt (FormData.totalEmployees formData)) in
  if Qeq_bool totalEmployees 0 then
    calculateQuote (FormData.withCounts FormData.empty (JS.Num 0) (JS.Num 0))
  else
    let estimatedMales := JS.Math_round (totalEmployees * maleRatio) in
    let estimatedFemales := totalEmployees - estimatedMales in
    let updatedFormData :=
      FormData.withCounts formData (JS.Num estimatedMales) (JS.Num estimatedFemales) in
    quote <- calculateQuote updatedFormData ;;
    ret (markEstimated maleRatio quote).

(** [formatCurrency(amount)]. *)
Definition formatCurrency (amount : Q) : option string :=
  match JS.toFixed2 amount with
  | Some fixed => Some ("$" ++ JS.replaceThousands None fixed)
  | None => None
  end.

Module Description.
Record t : Type := mk {
  name : string;
  maxWeekly : Q;
  maxWithHospital : option Q;
  description : string
}.
End Description.

(** The table [descriptions] of [getBenefitDescription]; the statutory entry
    has no [maxWithHospital]. *)
Definition descriptions : list (string * Description.t) :=
  [ ("statutory",
      Description.mk "Statutory DBL" 170 None "50% of salary up to $170/week");
    ("enriched1.5x",
      Description.mk "1.5-times DBL" 255 (Some 425) "50% of salary up to $255/week");
    ("enriched2x",
      Description.mk "2-times DBL" 340 (Some 510) "50% of salary up to $340/week");
    ("enriched3x",
      Description.mk "3-times DBL" 510 (Some 680) "50% of salary up to $510/week");
    ("enriched4x",
      Description.mk "4-times DBL" 680 (Some 850) "50% of salary up to $680/week");
    ("enriched5x",
      Description.mk "5-times DBL" 850 (Some 1020) "50% of salary up to $850/week") ].

(** [getBenefitDescription(benefitTier)]:
    [descriptions[benefitTier] || descriptions.statutory].  A key found on
    [Object.prototype] yields the inherited member, which is truthy and is
    returned as it is ([Inherited]). *)
Definition getBenefitDescription (benefitTier : JS.value) : property Description.t :=
  match getProperty descriptions benefitTier with
  | Own d => Own d
  | Inherited => Inherited
  | Missing => getProperty descriptions (JS.Str "statutory")
  end.

End NY.

(** ** The flat-rate calculator: [src/quote-calculator.js] *)

Module Legacy.

Local Open Scope Q_scope.

Module PRICING.
Definition baseRatePerEmployee : Q := 50.
Definition statutoryMultiplier : Q := 1.0.
Definition enriched1_5x : Q := 1.5.
Definition enriched2x : Q := 2.0.
Definition enriched3x : Q := 3.0.
Definition enriched4x : Q := 4.0.
Definition enriched5x : Q := 5.0.
Definition inHospitalRider : Q := 2.50.
Definition addd50k : Q := 1.25.
Definition addd100k : Q := 2.50.
Definition termLife15k : Q := 1.50.
Definition eap : Q := 0.75.
Definition nurseHelpline : Q := 0.50.
Definition quarterlyFee : Q := 15.00.
Definition annualMinimum : Q := 125.00.
Definition quarterlyMinimum : Q := 35.00.
Definition payrollRate : Q := 0.005.
End PRICING.

(** [getDBLMultiplier(benefitValue)]: a [switch], which compares with [===]. *)
Definition getDBLMultiplier (benefitValue : JS.value) : Q :=
  if JS.strictEq benefitValue (JS.Str "statutory") then PRICING.statutoryMultiplier
  else if JS.strictEq benefitValue (JS.Str "enriched1.5x") then PRICING.enriched1_5x
  else if JS.strictEq benefitValue (JS.Str "enriched2x") then PRICING.enriched2x
  else if JS.strictEq benefitValue (JS.Str "enriched3x") then PRICING.enriched3x
  else if JS.strictEq benefitValue (JS.Str "enriched4x") then PRICING.enriched4x
  else if JS.strictEq benefitValue (JS.Str "enriched5x") then PRICING.enriched5x
  else PRICING.statutoryMultiplier.

(** [calculateBasePremium(totalEmployees, multiplier, billingType, totalPayroll)]. *)
Definition calculateBasePremium (totalEmployees multiplier : Q) (billingType : JS.value)
    (totalPayroll : Q) : Q :=
  if JS.strictEq billingType (JS.Str "quarterlyPayroll") && JS.ltb 0 totalPayroll then
    totalPayroll * PRICING.payrollRate
  else
    totalEmployees * PRICING.baseRatePerEmployee * multiplier.

(** [calculateRidersCost(totalEmployees, inHospitalSelected, adddBenefit)]. *)
Definition calculateRidersCost (totalEmployees : Q) (inHospitalSelected : bool)
    (adddBenefit : JS.value) : Q :=
  let ridersMonthly := 0 in
  let ridersMonthly :=
    if inHospitalSelected
    then ridersMonthly + totalEmployees * PRICING.inHospitalRider else ridersMonthly in
  let ridersMonthly :=
    if JS.strictEq adddBenefit (JS.Str "50000")
    then ridersMonthly + totalEmployees * PRICING.addd50k
    else if JS.strictEq adddBenefit (JS.Str "100000")
    then ridersMonthly + totalEmployees * PRICING.addd100k
    else ridersMonthly in
  ridersMonthly.

(** [calculateOptionalBenefitsCost(totalEmployees, termLifeSelected,
    eapSelected, nurseHelplineSelected)]. *)
Definition calculateOptionalBenefitsCost (totalEmployees : Q)
    (termLifeSelected eapSelected nurseHelplineSelected : bool) : Q :=
  let optionalMonthly := 0 in
  let optionalMonthly :=
    if termLifeSelected
    then optionalMonthly + totalEmployees * PRICING.termLife15k else optionalMonthly in
  let optionalMonthly :=
    if eapSelected
    then optionalMonthly + totalEmployees * PRICING.eap else optionalMonthly in
  let optionalMonthly :=
    if nurseHelplineSelected
    then optionalMonthly + totalEmployees * PRICING.nurseHelpline else optionalMonthly in
  optionalMonthly.

Definition quarterlyLike (billingType : JS.value) : bool :=
  JS.strictEq billingType (JS.Str "quarterly")
  || JS.strictEq billingType (JS.Str "quarterlyPayroll").

(** [applyMinimums(monthlyPremium, billingType)]. *)
Definition applyMinimums (monthlyPremium : Q) (billingType : JS.value) : Q :=
  if JS.strictEq billingType (JS.Str "annual") then
    if JS.ltb (monthlyPremium * 12) PRICING.annualMinimum then PRICING.annualMinimum / 12
    else monthlyPremium
  else if quarterlyLike billingType then
    if JS.ltb (monthlyPremium * 3) PRICING.quarterlyMinimum then PRICING.quarterlyMinimum / 3
    else monthlyPremium
  else monthlyPremium.

(** [addBillingFees(monthlyPremium, billingType)]. *)
Definition addBillingFees (monthlyPremium : Q) (billingType : JS.value) : Q :=
  if quarterlyLike billingType then monthlyPremium + (PRICING.quarterlyFee / 3)
  else monthlyPremium.

Module Breakdown.
Record t : Type := mk {
  basePremium : Q;
  ridersCost : Q;
  optionalCost : Q;
  totalCost : Q
}.
End Breakdown.

Record QuoteResult : Type := mkQuote {
  baseMonthlyPremium : Q;
  ridersMonthly : Q;
  optionalMonthly : Q;
  totalMonthly : Q;
  displayAmount : Q;
  billingPeriod : string;
  breakdown : Breakdown.t
}.

(** [calculateQuote(formData)].  Nothing in this file logs or throws. *)
Definition calculateQuote (formData : FormData.t) : QuoteResult :=
  let totalEmployees := JS.orZero (JS.parseInt (FormData.totalEmployees formData)) in
  if Qeq_bool totalEmployees 0 then
    mkQuote 0 0 0 0 0 "year" (Breakdown.mk 0 0 0 0)
  else
    let multiplier :=
      getDBLMultiplier (JS.or (FormData.dblBenefits formData) (JS.Str "statutory")) in
    let billingType := JS.or (FormData.billingOption formData) (JS.Str "annual") in
    let billingPeriod := if quarterlyLike billingType then "quarter" else "year" in
    let totalPayroll := JS.orZero (JS.parseFloat (FormData.totalPayroll formData)) in
    let baseMonthlyPremium :=
      calculateBasePremium totalEmployees multiplier billingType totalPayroll in
    let ridersMonthly :=
      calculateRidersCost totalEmployees (checked (FormData.inHospitalRider formData))
                          (JS.or (FormData.addBenefit formData) JS.Null) in
    let optionalMonthly :=
      calculateOptionalBenefitsCost totalEmployees
                                    (checked (FormData.termLife15k formData))
                                    (checked (FormData.eap formData))
                                    (checked (FormData.nurseHelpline formData)) in
    let totalMonthly := baseMonthlyPremium + ridersMonthly + optionalMonthly in
    let totalMonthly := applyMinimums totalMonthly billingType in
    let totalMonthly := addBillingFees totalMonthly billingType in
    let displayAmount :=
      if (billingPeriod =? "year")%string then totalMonthly * 12 else totalMonthly * 3 in
    let periodMultiplier := if (billingPeriod =? "year")%string then 12 else 3 in
    mkQuote baseMonthlyPremium ridersMonthly optionalMonthly totalMonthly displayAmount
            billingPeriod
            (Breakdown.mk (baseMonthlyPremium * periodMultiplier)
                          (ridersMonthly * periodMultiplier)
                          (optionalMonthly * periodMultiplier) displayAmount).

(** [formatCurrency(amount)], the same text as in the rate-card engine. *)
Definition formatCurrency (amount : Q) : option string :=
  match JS.toFixed2 amount with
  | Some fixed => Some ("$" ++ JS.replaceThousands None fixed)
  | None => None
  end.

End Legacy.

(** ** The rate-card arithmetic in double precision *)

Module Binary64.

Local Open Scope float_scope.

Definition ofZ (z : Z) : float :=
  match z with
  | Z0 => 0
  | Zpos _ => of_uint63 (Uint63.of_Z z)
  | Zneg p => - of_uint63 (Uint63.of_Z (Zpos p))
  end.

(** The double a decimal literal of the source denotes: numerator and
    denominator are exact, and their quotient is rounded to nearest once. *)
Definition literal (q : Q) : float := ofZ (Qnum q) / ofZ (Zpos (Qden q)).

(** [x || 0]. *)
Definition numOrZero (x : float) : float := if PrimFloat.is_nan x || PrimFloat.is_zero x then 0 else x.

(** [calculateDBLPremium], as [NY.calculateDBLPremium] with the products and
    the sum in double precision. *)
Definition calculateDBLPremium (maleCount femaleCount : float)
    (benefitTier billingType : JS.value) (includeHospital : bool) : js float :=
  let tier := JS.or benefitTier (JS.Str "statutory") in
  let quarterlyBilling := JS.strictEq billingType (JS.Str "quarterly") in
  match getProperty NY.DBL_RATES tier with
  | Missing =>
      console_error "Invalid benefit tier:" tier ;;;
      ret 0
  | Inherited => throw TypeError
  | Own tierRates =>
      let rates :=
        if quarterlyBilling then NY.quarterly tierRates else NY.annual tierRates in
      let monthlyPremium :=
        if includeHospital then
          (maleCount * literal (NY.maleWithHospital rates))
          + (femaleCount * literal (NY.femaleWithHospital rates))
        else
          (maleCount * literal (NY.male rates))
          + (femaleCount * literal (NY.female rates)) in
      ret monthlyPremium
  end.

(** [applyMinimums]. *)
Definition applyMinimums (monthlyPremium : float) (billingType : JS.value) : float :=
  if JS.strictEq billingType (JS.Str "annual") then
    let annualPremium := monthlyPremium * 12 in
    if annualPremium <? literal NY.MINIMUMS.annualDBL
    then literal NY.MINIMUMS.annualDBL / 12
    else monthlyPremium
  else if JS.strictEq billingType (JS.Str "quarterly") then
    let quarterlyPremium := monthlyPremium * 3 in
    if quarterlyPremium <? literal NY.MINIMUMS.quarterlyDBL
    then literal NY.MINIMUMS.quarterlyDBL / 3
    else monthlyPremium
  else monthlyPremium.

(** [annualPFL] of [calculatePFLPremium]. *)
Definition annualPFL (employeesOverNYSAWW payrollBelowNYSAWW : float) : float :=
  let pflFromOverCap :=
    numOrZero employeesOverNYSAWW * literal NY.PFL_RATE.annualCapPerEmployee in
  let payrollBelow := numOrZero payrollBelowNYSAWW in
  let pflFromBelowCap := payrollBelow * literal NY.PFL_RATE.percentOfPayroll in
  pflFromOverCap + pflFromBelowCap.

(** [breakdown.dblPremium] of an annual quote on a form with a non-zero
    headcount: the minimum-adjusted monthly premium times 12. *)
Definition annualDBLLine (maleCount femaleCount : float) (benefitTier : JS.value)
    (includeHospital : bool) : js float :=
  dblMonthly <- calculateDBLPremium maleCount femaleCount benefitTier (JS.Str "annual")
                                    includeHospital ;;
  let dblMonthly := applyMinimums dblMonthly (JS.Str "annual") in
  ret (dblMonthly * 12).

End Binary64.

(** * Properties *)

Local Open Scope Q_scope.

(** ** Vocabulary: the values [NY.calculateQuote] reads off a form *)

Definition maleCountOf (fd : FormData.t) : Q :=
  JS.orZero (JS.parseInt (FormData.maleEmployees fd)).
Definition femaleCountOf (fd : FormData.t) : Q :=
  JS.orZero (JS.parseInt (FormData.femaleEmployees fd)).
Definition headcountOf (fd : FormData.t) : Q := maleCountOf fd + femaleCountOf fd.
Definition tierOf (fd : FormData.t) : JS.value :=
  JS.or (FormData.dblBenefits fd) (JS.Str "statutory").
Definition billingOf (fd : FormData.t) : JS.value :=
  JS.or (FormData.billingOption fd) (JS.Str "annual").
Definition hospitalOf (fd : FormData.t) : bool := checked (FormData.inHospitalRider fd).
Definition overOf (fd : FormData.t) : Q :=
  JS.orZero (JS.parseInt (FormData.employeesOverNYSAWW fd)).
Definition belowOf (fd : FormData.t) : Q :=
  JS.orZero (JS.parseFloat (FormData.payrollBelowNYSAWW fd)).
Definition selectionsOf (fd : FormData.t) : NY.Selections.t :=
  NY.Selections.mk (checked (FormData.termLife15k fd)) (checked (FormData.eap fd))
                   (checked (FormData.nurseHelpline fd))
                   (JS.strictEq (FormData.adddBenefit fd) (JS.Str "50000"))
                   (JS.strictEq (FormData.adddBenefit fd) (JS.Str "100000")).

(** The raw DBL line of a form: the call [calculateQuote] makes. *)
Definition rawDBLOf (fd : FormData.t) : js Q :=
  NY.calculateDBLPremium (maleCountOf fd) (femaleCountOf fd) (tierOf fd) (billingOf fd)
                         (hospitalOf fd).

(** The raw PFL and optional lines. *)
Definition rawPFLOf (fd : FormData.t) : NY.Pfl.t :=
  NY.calculatePFLPremium (overOf fd) (belowOf fd) (headcountOf fd).
Definition rawOptionalOf (fd : FormData.t) : Q :=
  NY.calculateOptionalBenefits (headcountOf fd) (selectionsOf fd).

(** The six tier codes of the rate card. *)
Definition tierCodes : list string := map fst NY.DBL_RATES.

(** A form with the given properties and nothing else. *)
Definition form (male female tier billing hospital : JS.value) : FormData.t :=
  FormData.mk male female JS.Undefined tier billing hospital JS.Undefined JS.Undefined
              JS.Undefined JS.Undefined JS.Undefined JS.Undefined JS.Undefined
              JS.Undefined JS.Undefined.

(** ** Basic facts *)

Lemma ltb_lt (a b : Q) : JS.ltb a b = true <-> a < b.
Proof.
  unfold JS.ltb. rewrite negb_true_iff.
  split; intro H.
  - apply Qnot_le_lt. intro L. apply Qle_bool_iff in L. congruence.
  - destruct (Qle_bool b a) eqn:E; [|reflexivity].
    apply Qle_bool_iff in E. exfalso. apply (Qlt_not_le _ _ H E).
Qed.

Lemma ltb_ge (a b : Q) : JS.ltb a b = false <-> b <= a.
Proof.
  unfold JS.ltb. rewrite negb_false_iff. apply Qle_bool_iff.
Qed.

Lemma numOrZero_eq (x : Q) : JS.numOrZero x == x.
Proof.
  unfold JS.numOrZero. destruct (Qeq_bool x 0) eqn:E; [|reflexivity].
  apply Qeq_bool_iff in E. symmetry. exact E.
Qed.

Lemma assoc_not_in {A} (k : string) (l : list (string * A)) :
  ~ In k (map fst l) -> assoc k l = None.
Proof.
  induction l as [|[k' a] l IH]; simpl; intro H; [reflexivity|].
  destruct (String.eqb_spec k k') as [->|N].
  - exfalso. apply H. left. reflexivity.
  - apply IH. intro I. apply H. right. exact I.
Qed.

Lemma memString_not_in (k : string) (l : list string) :
  ~ In k l -> memString k l = false.
Proof.
  unfold memString. induction l as [|k' l IH]; simpl; intro H; [reflexivity|].
  destruct (String.eqb_spec k k') as [->|N].
  - exfalso. apply H. left. reflexivity.
  - apply IH. intro I. apply H. right. exact I.
Qed.

(** How [calculateQuote] uses the vocabulary. *)
Lemma calculateQuote_zero (fd : FormData.t) :
  headcountOf fd == 0 ->
  NY.calculateQuote fd
  = ret (NY.mkQuote 0 0 0 0 0 "year" None (NY.Breakdown.mk 0 0 0 0) None None None None).
Proof.
  intro H. apply Qeq_bool_iff in H. unfold NY.calculateQuote.
  unfold headcountOf, maleCountOf, femaleCountOf in H. rewrite H. reflexivity.
Qed.

Lemma calculateQuote_nonzero (fd : FormData.t) :
  ~ headcountOf fd == 0 ->
  NY.calculateQuote fd
  = (d <- rawDBLOf fd ;;
     let dbl := NY.applyMinimums d (billingOf fd) in
     let pfl := NY.Pfl.monthlyTotal (rawPFLOf fd) in
     let opt := rawOptionalOf fd in
     let total := dbl + pfl + opt in
     let period :=
       if JS.strictEq (billingOf fd) (JS.Str "quarterly") then "quarter" else "year" in
     let mult := if (period =? "year")%string then 12 else 3 in
     ret (NY.mkQuote dbl pfl opt total (total * mult) period (Some mult)
            (NY.Breakdown.mk (dbl * mult) (pfl * mult) (opt * mult) (total * mult))
            (Some (NY.mkPerEmployee (dbl / headcountOf fd) (pfl / headcountOf fd)
                                    (opt / headcountOf fd) (total / headcountOf fd)))
            (Some (NY.EmployeeInfo.mk (maleCountOf fd) (femaleCountOf fd) (headcountOf fd)))
            None None)).
Proof.
  intro H. unfold NY.calculateQuote.
  destruct (Qeq_bool _ 0) eqn:E.
  - exfalso. apply H. apply Qeq_bool_iff. exact E.
  - reflexivity.
Qed.

(** ** C1: what an unrecognized benefit tier does *)

Lemma strictEq_Str (a b : string) : JS.strictEq (JS.Str a) (JS.Str b) = (a =? b)%string.
Proof. reflexivity. Qed.

Lemma getProperty_missing (tier : string) :
  ~ In tier tierCodes -> ~ In tier Object_prototype_keys ->
  getProperty NY.DBL_RATES (JS.Str tier) = Missing.
Proof.
  intros H1 H2. unfold getProperty, propertyKey.
  rewrite (assoc_not_in _ _ H1), (memString_not_in _ _ H2). reflexivity.
Qed.

(** A tier named like a property of [Object.prototype] passes the guard and
    makes the rate lookup throw. *)
Lemma inherited_tier_name_throws
    (maleCount femaleCount : Q) (tier : string) (billingType : JS.value)
    (includeHospital : bool) :
  In tier Object_prototype_keys ->
  NY.calculateDBLPremium maleCount femaleCount (JS.Str tier) billingType includeHospital
  = ([], Throw TypeError).
Proof.
  unfold Object_prototype_keys. simpl.
  intros [<-|[<-|[<-|[<-|[<-|[<-|[<-|[<-|[<-|[<-|[<-|[<-|[]]]]]]]]]]]]]; reflexivity.
Qed.

(** The rate-card engine on the tier ["platinum"], one male employee, annual
    billing, no rider: the premium is 0, where ["statutory"] gives 1.50. *)
Lemma unknown_tier_is_priced_zero :
  returnsAmount
    (NY.calculateDBLPremium 1 0 (JS.Str "platinum") (JS.Str "annual") false) 0
  /\ returnsAmount
       (NY.calculateDBLPremium 1 0 (JS.Str "statutory") (JS.Str "annual") false) 1.50
  /\ ~ (0 == 1.50).
Proof.
  split; [|split].
  - vm_compute. reflexivity.
  - vm_compute. reflexivity.
  - intro H. vm_compute in H. discriminate H.
Qed.

(** C1 (amended).  For a tier string that is not one of the six codes:
    the flat-rate calculator's [getDBLMultiplier] falls back to the statutory
    multiplier; the rate-card engine's [calculateDBLPremium] falls back to the
    statutory rates only when the tier is absent or empty, and for a non-empty
    tier that is not a name inherited from [Object.prototype] it logs
    "Invalid benefit tier:" and returns 0 without throwing. *)
Theorem unrecognized_tier_behaviour
    (maleCount femaleCount : Q) (tier : string) (billingType : JS.value)
    (includeHospital : bool) :
  ~ In tier tierCodes ->
  Legacy.getDBLMultiplier (JS.Str tier) = Legacy.getDBLMultiplier (JS.Str "statutory")
  /\ NY.calculateDBLPremium maleCount femaleCount JS.Undefined billingType includeHospital
     = NY.calculateDBLPremium maleCount femaleCount (JS.Str "statutory") billingType
                              includeHospital
  /\ (tier = "" ->
      NY.calculateDBLPremium maleCount femaleCount (JS.Str tier) billingType includeHospital
      = NY.calculateDBLPremium maleCount femaleCount (JS.Str "statutory") billingType
                               includeHospital)
  /\ (tier <> "" -> ~ In tier Object_prototype_keys ->
      NY.calculateDBLPremium maleCount femaleCount (JS.Str tier) billingType includeHospital
      = ([ConsoleError "Invalid benefit tier:" (JS.Str tier)], Normal 0)).
Proof.
  intro H. split; [|split; [reflexivity|split]].
  - unfold Legacy.getDBLMultiplier. rewrite !strictEq_Str.
    repeat match goal with
    | |- context [(tier =? ?c)%string] =>
        destruct (String.eqb_spec tier c) as [->|_];
        [exfalso; apply H; unfold tierCodes; simpl; tauto|]
    end.
    reflexivity.
  - intros ->. reflexivity.
  - intros Hne Hproto. unfold NY.calculateDBLPremium.
    assert (T : JS.or (JS.Str tier) (JS.Str "statutory") = JS.Str tier).
    { unfold JS.or. simpl. destruct (String.eqb_spec tier "") as [E|_]; [contradiction|].
      reflexivity. }
    rewrite T, (getProperty_missing _ H Hproto). reflexivity.
Qed.

Lemma unrecognized_tier_behaviour_witness :
  ~ In "platinum" tierCodes
  /\ NY.calculateDBLPremium 3 4 (JS.Str "platinum") (JS.Str "quarterly") true
     = ([ConsoleError "Invalid benefit tier:" (JS.Str "platinum")], Normal 0).
Proof.
  assert (H : ~ In "platinum" tierCodes).
  { unfold tierCodes. simpl. intros [E|[E|[E|[E|[E|[E|[]]]]]]]; discriminate E. }
  split; [exact H|].
  apply (unrecognized_tier_behaviour 3 4 "platinum" (JS.Str "quarterly") true H).
  - discriminate.
  - unfold Object_prototype_keys. simpl.
    intros [E|[E|[E|[E|[E|[E|[E|[E|[E|[E|[E|[E|[]]]]]]]]]]]]]; discriminate E.
Defined.

(** ** C2: which lines the minimum floor touches *)

(** Nobody on the payroll, five employees declared over the wage threshold. *)
Definition zeroHeadcountForm : FormData.t :=
  FormData.mk (JS.Str "0") (JS.Str "0") JS.Undefined JS.Undefined JS.Undefined
              JS.Undefined JS.Undefined JS.Undefined (JS.Str "5") JS.Undefined
              JS.Undefined JS.Undefined JS.Undefined JS.Undefined JS.Undefined.

(** With no employees no calculator runs: the PFL line is 0 although the PFL
    calculator yields 5 * 411.91 / 12 on these inputs, and the DBL line is 0,
    not the floor 125 / 12. *)
Lemma zero_headcount_lines_are_not_calculator_outputs :
  exists q,
    NY.calculateQuote zeroHeadcountForm = ([], Normal q)
    /\ NY.pflMonthly q == 0
    /\ NY.Pfl.monthlyTotal (rawPFLOf zeroHeadcountForm) == 5 * 411.91 / 12
    /\ ~ (NY.pflMonthly q == NY.Pfl.monthlyTotal (rawPFLOf zeroHeadcountForm))
    /\ NY.dblMonthly q == 0
    /\ returnsAmount (rawDBLOf zeroHeadcountForm) 0
    /\ ~ (NY.dblMonthly q == NY.applyMinimums 0 (billingOf zeroHeadcountForm)).
Proof.
  eexists. split; [vm_compute; reflexivity|].
  repeat split; try (vm_compute; reflexivity);
    intro H; vm_compute in H; discriminate H.
Qed.

(** C2 (amended).  For every input with a non-zero total employee count on
    which the DBL calculator returns, [calculateQuote] returns a quote whose
    [dblMonthly] is the minimum-adjusted DBL premium while [pflMonthly] and
    [optionalMonthly] are the raw outputs of the PFL and optional-benefits
    calculators. *)
Theorem minimum_floor_on_DBL_line_only
    (fd : FormData.t) (log : list consoleLine) (rawDBL : Q) :
  ~ headcountOf fd == 0 ->
  rawDBLOf fd = (log, Normal rawDBL) ->
  exists q,
    NY.calculateQuote fd = (log, Normal q)
    /\ NY.dblMonthly q = NY.applyMinimums rawDBL (billingOf fd)
    /\ NY.pflMonthly q = NY.Pfl.monthlyTotal (rawPFLOf fd)
    /\ NY.optionalMonthly q = rawOptionalOf fd.
Proof.
  intros Hn Hd. rewrite (calculateQuote_nonzero fd Hn), Hd. simpl.
  rewrite app_nil_r. eexists. split; [reflexivity|].
  simpl. repeat split.
Qed.

Lemma minimum_floor_on_DBL_line_only_witness :
  exists q,
    NY.calculateQuote
      (form (JS.Str "1") (JS.Str "0") (JS.Str "statutory") (JS.Str "annual") JS.Undefined)
    = ([], Normal q)
    /\ NY.dblMonthly q == 125 / 12
    /\ NY.pflMonthly q == 0
    /\ NY.optionalMonthly q == 0.
Proof.
  destruct (minimum_floor_on_DBL_line_only
              (form (JS.Str "1") (JS.Str "0") (JS.Str "statutory") (JS.Str "annual")
                    JS.Undefined)
              [] (1 * 1.50 + 0 * 3.25))
    as [q [Hq [Hd [Hp Ho]]]].
  - intro H. vm_compute in H. discriminate H.
  - reflexivity.
  - exists q. split; [exact Hq|].
    rewrite Hd, Hp, Ho. repeat split; vm_compute; reflexivity.
Defined.

(** ** C3: the quarterly installment fee *)

(** Ten male employees, statutory tier, quarterly billing. *)
Definition quarterlyForm : FormData.t :=
  form (JS.Str "10") (JS.Str "0") (JS.Str "statutory") (JS.Str "quarterly") JS.Undefined.

(** The rate-card engine bills the quarter at exactly the sum of its three
    lines, 10 * 1.85 = 18.50 a month: no installment fee is added.  (Nor does
    the flat-rate calculator add its fee to a quarterly quote for nobody.) *)
Lemma rate_card_quarterly_quote_has_no_fee :
  exists q,
    NY.calculateQuote quarterlyForm = ([], Normal q)
    /\ NY.billingPeriod q = "quarter"
    /\ NY.dblMonthly q == 18.50
    /\ NY.pflMonthly q == 0
    /\ NY.optionalMonthly q == 0
    /\ NY.totalMonthly q == 18.50
    /\ ~ (NY.totalMonthly q == 18.50 + Legacy.PRICING.quarterlyFee / 3)
    /\ Legacy.totalMonthly
         (Legacy.calculateQuote
            (FormData.withCounts
               (form JS.Undefined JS.Undefined JS.Undefined (JS.Str "quarterly")
                     JS.Undefined)
               JS.Undefined JS.Undefined))
       = 0.
Proof.
  eexists. split; [vm_compute; reflexivity|].
  repeat split; try (vm_compute; reflexivity).
  intro H; vm_compute in H; discriminate H.
Qed.

Lemma calculateQuote_total_is_sum_of_lines
    (fd : FormData.t) (log : list consoleLine) (q : NY.QuoteResult) :
  NY.calculateQuote fd = (log, Normal q) ->
  NY.totalMonthly q == NY.dblMonthly q + NY.pflMonthly q + NY.optionalMonthly q.
Proof.
  intro H. destruct (Qeq_dec (headcountOf fd) 0) as [Z|N].
  - rewrite (calculateQuote_zero fd Z) in H. inversion H; subst. reflexivity.
  - rewrite (calculateQuote_nonzero fd N) in H.
    destruct (rawDBLOf fd) as [l [d|e]]; simpl in H; [|discriminate H].
    inversion H; subst. reflexivity.
Qed.

(** C3 (amended).  The installment fee exists in the flat-rate calculator
    only: there, for every input with quarterly (or quarterly-payroll) billing
    and a non-zero employee count, the monthly total is the minimum-adjusted
    sum of the lines plus the fee of 15 divided by 3, so the fee is added after
    the minimum check and is not itself subject to it.  The rate-card engine
    adds no fee: its monthly total is the sum of its three lines. *)
Theorem quarterly_fee_added_after_minimum (fd : FormData.t) :
  Legacy.quarterlyLike (billingOf fd) = true ->
  ~ JS.orZero (JS.parseInt (FormData.totalEmployees fd)) == 0 ->
  let q := Legacy.calculateQuote fd in
  Legacy.totalMonthly q
  = Legacy.applyMinimums
      (Legacy.baseMonthlyPremium q + Legacy.ridersMonthly q + Legacy.optionalMonthly q)
      (billingOf fd)
    + Legacy.PRICING.quarterlyFee / 3
  /\ Legacy.PRICING.quarterlyFee / 3 == 5
  /\ Legacy.billingPeriod q = "quarter"
  /\ forall fd' log q',
       NY.calculateQuote fd' = (log, Normal q') ->
       NY.totalMonthly q' == NY.dblMonthly q' + NY.pflMonthly q' + NY.optionalMonthly q'.
Proof.
  intros Hq Hn q. subst q. unfold Legacy.calculateQuote.
  destruct (Qeq_bool _ 0) eqn:E.
  { exfalso. apply Hn. apply Qeq_bool_iff. exact E. }
  fold (billingOf fd). cbv zeta. unfold Legacy.addBillingFees. rewrite Hq. simpl.
  repeat split.
  exact calculateQuote_total_is_sum_of_lines.
Qed.

(** Three employees, statutory tier, quarterly billing, as the flat-rate
    calculator reads them. *)
Definition legacyQuarterlyForm : FormData.t :=
  FormData.mk JS.Undefined JS.Undefined (JS.Str "3") (JS.Str "statutory")
              (JS.Str "quarterly") JS.Undefined JS.Undefined JS.Undefined JS.Undefined
              JS.Undefined JS.Undefined JS.Undefined JS.Undefined JS.Undefined
              JS.Undefined.

Lemma quarterly_fee_added_after_minimum_witness :
  Legacy.totalMonthly (Legacy.calculateQuote legacyQuarterlyForm) == 150 + 5.
Proof.
  destruct (quarterly_fee_added_after_minimum legacyQuarterlyForm) as [H _].
  - reflexivity.
  - intro H. vm_compute in H. discriminate H.
  - rewrite H. vm_compute. reflexivity.
Defined.

(** ** C4: the zero-employee quote *)

(** No employees, quarterly billing selected: the period reported is still
    ["year"]. *)
Lemma zero_quote_ignores_billing_selection :
  exists q,
    NY.calculateQuote
      (form (JS.Str "0") (JS.Str "0") JS.Undefined (JS.Str "quarterly") JS.Undefined)
    = ([], Normal q)
    /\ NY.billingPeriod q = "year"
    /\ NY.billingPeriod q <> "quarter".
Proof.
  eexists. split; [vm_compute; reflexivity|].
  split; [reflexivity|discriminate].
Qed.

(** C4 (amended).  For every input whose total employee count is 0,
    [calculateQuote] short-circuits, without logging or throwing, to a result
    whose monetary fields are all 0 and whose [billingPeriod] is the constant
    ["year"], whatever the billing selection. *)
Theorem zero_employees_zero_quote (fd : FormData.t) :
  headcountOf fd == 0 ->
  NY.calculateQuote fd
  = ([], Normal (NY.mkQuote 0 0 0 0 0 "year" None (NY.Breakdown.mk 0 0 0 0)
                            None None None None)).
Proof.
  intro H. rewrite (calculateQuote_zero fd H). reflexivity.
Qed.

Lemma zero_employees_zero_quote_witness :
  NY.calculateQuote
    (form (JS.Str "0") JS.Undefined (JS.Str "enriched2x") (JS.Str "quarterly") (JS.Str "on"))
  = ([], Normal (NY.mkQuote 0 0 0 0 0 "year" None (NY.Breakdown.mk 0 0 0 0)
                            None None None None)).
Proof.
  apply (zero_employees_zero_quote
           (form (JS.Str "0") JS.Undefined (JS.Str "enriched2x") (JS.Str "quarterly")
                 (JS.Str "on"))).
  vm_compute. reflexivity.
Defined.

(** ** C5: the PFL premium *)

Lemma ltb_numOrZero (n : Q) : JS.ltb 0 (JS.numOrZero n) = JS.ltb 0 n.
Proof.
  unfold JS.numOrZero. destruct (Qeq_bool n 0) eqn:E; [|reflexivity].
  apply Qeq_bool_iff in E. symmetry.
  transitivity false.
  - apply ltb_ge. rewrite E. apply Qle_refl.
  - symmetry. apply ltb_ge. apply Qle_refl.
Qed.

(** C5.  The annual PFL premium is
    [employeesOverThreshold * annualCapPerEmployee
     + payrollBelowThreshold * percentOfPayroll]; the monthly figure is that
    over 12, the per-employee figure that over the employee count, and 0 when
    the count is 0.  Ten employees below the threshold with a payroll of
    500,000 pay 2160.00 a year; one employee over the threshold pays 411.91;
    both amounts come out exactly in double precision as well. *)
Theorem pfl_premium_formula (employeesOver payrollBelow employeeCount : Q) :
  NY.Pfl.annualTotal (NY.calculatePFLPremium employeesOver payrollBelow employeeCount)
  == employeesOver * NY.PFL_RATE.annualCapPerEmployee
     + payrollBelow * NY.PFL_RATE.percentOfPayroll
  /\ NY.Pfl.monthlyTotal (NY.calculatePFLPremium employeesOver payrollBelow employeeCount)
     == NY.Pfl.annualTotal
          (NY.calculatePFLPremium employeesOver payrollBelow employeeCount) / 12
  /\ NY.Pfl.annualPerEmployee
       (NY.calculatePFLPremium employeesOver payrollBelow employeeCount)
     == (if JS.ltb 0 employeeCount
         then NY.Pfl.annualTotal
                (NY.calculatePFLPremium employeesOver payrollBelow employeeCount)
              / employeeCount
         else 0)
  /\ NY.Pfl.annualPerEmployee (NY.calculatePFLPremium employeesOver payrollBelow 0) == 0
  /\ NY.Pfl.monthlyPerEmployee (NY.calculatePFLPremium employeesOver payrollBelow 0) == 0
  /\ NY.PFL_RATE.annualCapPerEmployee == 411.91
  /\ NY.PFL_RATE.percentOfPayroll == 0.00432
  /\ NY.Pfl.annualTotal (NY.calculatePFLPremium 0 500000 10) == 2160.00
  /\ NY.Pfl.annualTotal (NY.calculatePFLPremium 1 0 1) == 411.91
  /\ Binary64.annualPFL 0 500000 = 2160%float
  /\ Binary64.annualPFL 1 0 = Binary64.literal 411.91.
Proof.
  split; [|split; [|split]].
  - unfold NY.calculatePFLPremium. cbn [NY.Pfl.annualTotal].
    rewrite !numOrZero_eq. reflexivity.
  - reflexivity.
  - unfold NY.calculatePFLPremium.
    cbn [NY.Pfl.annualTotal NY.Pfl.annualPerEmployee].
    rewrite ltb_numOrZero.
    destruct (JS.ltb 0 employeeCount); [|reflexivity].
    rewrite (numOrZero_eq employeeCount). reflexivity.
  - repeat split; try reflexivity; vm_compute; reflexivity.
Qed.

(** ** C6: the annual minimum on a one-person statutory quote *)

(** C6.  Statutory tier, annual billing, one male employee, no female
    employee, no hospital rider: the raw DBL premium is 1.50 a month, 18 a
    year, below the annual minimum of 125, and the annual DBL line of the
    result's breakdown is exactly 125.00, not 18.00 (in double precision
    too: 125 / 12 * 12 rounds back to 125). *)
Theorem single_statutory_male_pays_annual_minimum :
  returnsAmount
    (NY.calculateDBLPremium 1 0 (JS.Str "statutory") (JS.Str "annual") false) 1.50
  /\ 1.50 * 12 == 18
  /\ 18 < NY.MINIMUMS.annualDBL
  /\ NY.MINIMUMS.annualDBL == 125
  /\ exists q,
       NY.calculateQuote
         (form (JS.Num 1) (JS.Num 0) (JS.Str "statutory") (JS.Str "annual") JS.Undefined)
       = ([], Normal q)
       /\ NY.calculateQuote
            (form (JS.Str "1") (JS.Str "0") (JS.Str "statutory") (JS.Str "annual")
                  (JS.Bool false))
          = ([], Normal q)
       /\ NY.billingPeriod q = "year"
       /\ NY.Breakdown.dblPremium (NY.breakdown q) == 125.00
       /\ ~ (NY.Breakdown.dblPremium (NY.breakdown q) == 18.00)
       /\ Binary64.annualDBLLine 1 0 (JS.Str "statutory") false
          = ([], Normal 125%float).
Proof.
  split; [vm_compute; reflexivity|].
  split; [reflexivity|].
  split; [reflexivity|].
  split; [reflexivity|].
  eexists. split; [vm_compute; reflexivity|].
  split; [vm_compute; reflexivity|].
  split; [reflexivity|].
  split; [vm_compute; reflexivity|].
  split; [|vm_compute; reflexivity].
  intro H. vm_compute in H. discriminate H.
Qed.

(** ** Facts about the rate table *)

Definition positiveRates (r : NY.Rates) : Prop :=
  0 < NY.male r /\ 0 < NY.female r
  /\ 0 < NY.maleWithHospital r /\ 0 < NY.femaleWithHospital r.

Definition hospitalDearer (r : NY.Rates) : Prop :=
  NY.male r < NY.maleWithHospital r /\ NY.female r < NY.femaleWithHospital r.

Definition soundTier (t : NY.TierRates) : Prop :=
  (positiveRates (NY.annual t) /\ hospitalDearer (NY.annual t))
  /\ (positiveRates (NY.quarterly t) /\ hospitalDearer (NY.quarterly t)).

Lemma rate_table_sound : Forall soundTier (map snd NY.DBL_RATES).
Proof.
  unfold NY.DBL_RATES. simpl.
  repeat constructor.
Qed.

Lemma assoc_in {A} (k : string) (l : list (string * A)) (a : A) :
  assoc k l = Some a -> In a (map snd l).
Proof.
  induction l as [|[k' a'] l IH]; simpl; intro H; [discriminate H|].
  destruct (k =? k')%string.
  - left. congruence.
  - right. apply IH. exact H.
Qed.

Lemma own_tier_sound (tier : JS.value) (t : NY.TierRates) :
  getProperty NY.DBL_RATES tier = Own t -> soundTier t.
Proof.
  unfold getProperty. intro H.
  destruct (propertyKey tier) as [k|]; [|discriminate H].
  destruct (assoc k NY.DBL_RATES) as [t'|] eqn:E.
  - inversion H; subst t'.
    exact (proj1 (Forall_forall _ _) rate_table_sound t (assoc_in _ _ _ E)).
  - destruct (memString k Object_prototype_keys); discriminate H.
Qed.

Lemma recognized_tier_is_own (tier : string) :
  In tier tierCodes ->
  exists t, getProperty NY.DBL_RATES (JS.or (JS.Str tier) (JS.Str "statutory")) = Own t.
Proof.
  unfold tierCodes. simpl.
  intros [<-|[<-|[<-|[<-|[<-|[<-|[]]]]]]]; eexists; reflexivity.
Qed.

(** ** Arithmetic of non-negative amounts *)

Lemma nonneg_sum (a b : Q) : 0 <= a -> 0 <= b -> 0 <= a + b.
Proof. intros. lra. Qed.

Lemma nonneg_quotient (a n : Q) : 0 <= a -> 0 < n -> 0 <= a / n.
Proof.
  intros Ha Hn. apply Qle_shift_div_l; [exact Hn|]. lra.
Qed.

Lemma nonneg_numOrZero (x : Q) : 0 <= x -> 0 <= JS.numOrZero x.
Proof. intro H. rewrite numOrZero_eq. exact H. Qed.

Create HintDb amounts.
#[local] Hint Resolve nonneg_sum Qmult_le_0_compat nonneg_quotient nonneg_numOrZero
  Qlt_le_weak Qle_refl : amounts.

Lemma rawDBL_nonneg (m f : Q) (tier billing : JS.value) (h : bool)
    (log : list consoleLine) (d : Q) :
  0 <= m -> 0 <= f ->
  NY.calculateDBLPremium m f tier billing h = (log, Normal d) ->
  0 <= d.
Proof.
  intros Hm Hf. unfold NY.calculateDBLPremium.
  destruct (getProperty _ _) as [t| |] eqn:G.
  - destruct (own_tier_sound _ _ G) as [[[A1 [A2 [A3 A4]]] _] [[B1 [B2 [B3 B4]]] _]].
    destruct (JS.strictEq billing _), h; intro H; inversion H; subst d;
      auto 6 with amounts.
  - discriminate.
  - intro H. inversion H. apply Qle_refl.
Qed.

Lemma applyMinimums_nonneg (d : Q) (billing : JS.value) :
  0 <= d -> 0 <= NY.applyMinimums d billing.
Proof.
  intro H. unfold NY.applyMinimums.
  destruct (JS.strictEq billing (JS.Str "annual")).
  - destruct (JS.ltb _ _); [discriminate|exact H].
  - destruct (JS.strictEq billing (JS.Str "quarterly")); [|exact H].
    destruct (JS.ltb _ _); [discriminate|exact H].
Qed.

Lemma pflMonthly_nonneg (over below n : Q) :
  0 <= over -> 0 <= below ->
  0 <= NY.Pfl.monthlyTotal (NY.calculatePFLPremium over below n).
Proof.
  intros Ho Hb. unfold NY.calculatePFLPremium. cbn [NY.Pfl.monthlyTotal].
  apply nonneg_quotient; [|reflexivity].
  apply nonneg_sum; apply Qmult_le_0_compat; auto with amounts; discriminate.
Qed.

Lemma optional_nonneg (n : Q) (sel : NY.Selections.t) :
  0 <= n -> 0 <= NY.calculateOptionalBenefits n sel.
Proof.
  intro H. unfold NY.calculateOptionalBenefits.
  destruct sel as [[] [] [] [] []]; cbn [NY.Selections.termLife15k NY.Selections.eap
    NY.Selections.nurseHelpline NY.Selections.addd50k NY.Selections.addd100k];
    repeat (apply nonneg_sum; [|apply Qmult_le_0_compat; [exact H|discriminate]]);
    apply Qle_refl.
Qed.

(** ** C7: negative employee counts *)

(** No amount of a quote is negative. *)
Definition noNegativeAmount (q : NY.QuoteResult) : Prop :=
  0 <= NY.dblMonthly q /\ 0 <= NY.pflMonthly q /\ 0 <= NY.optionalMonthly q
  /\ 0 <= NY.totalMonthly q /\ 0 <= NY.displayAmount q
  /\ (0 <= NY.Breakdown.dblPremium (NY.breakdown q)
      /\ 0 <= NY.Breakdown.pflPremium (NY.breakdown q)
      /\ 0 <= NY.Breakdown.optionalCost (NY.breakdown q)
      /\ 0 <= NY.Breakdown.totalCost (NY.breakdown q))
  /\ match NY.perEmployeeBreakdown q with
     | Some p =>
         0 <= NY.dblPerEmployee p /\ 0 <= NY.pflPerEmployee p
         /\ 0 <= NY.optionalPerEmployee p /\ 0 <= NY.totalPerEmployee p
     | None => True
     end.

(** Five male employees entered with a minus sign, two female employees, the
    term-life benefit ticked. *)
Definition negativeCountForm : FormData.t :=
  FormData.mk (JS.Str "-5") (JS.Str "2") JS.Undefined (JS.Str "statutory")
              (JS.Str "annual") JS.Undefined JS.Undefined JS.Undefined JS.Undefined
              JS.Undefined (JS.Bool true) JS.Undefined JS.Undefined JS.Undefined
              JS.Undefined.

(** The same form with the male count at 0. *)
Definition clampedCountForm : FormData.t :=
  FormData.withCounts negativeCountForm (JS.Str "0") (JS.Str "2").

(** The quote is computed with -5 men and a headcount of -3, not as if the
    male count were 0, and the optional line (-9 instead of 6) and the DBL
    figure per employee are negative. *)
Lemma negative_count_is_not_clamped :
  exists q q0,
    NY.calculateQuote negativeCountForm = ([], Normal q)
    /\ NY.calculateQuote clampedCountForm = ([], Normal q0)
    /\ NY.employeeInfo q = Some (NY.EmployeeInfo.mk (-5) 2 (-3))
    /\ NY.employeeInfo q0 = Some (NY.EmployeeInfo.mk 0 2 2)
    /\ NY.optionalMonthly q == -9
    /\ NY.optionalMonthly q0 == 6
    /\ NY.optionalMonthly q < 0
    /\ match NY.perEmployeeBreakdown q with
       | Some p => NY.dblPerEmployee p < 0
       | None => False
       end
    /\ ~ noNegativeAmount q.
Proof.
  eexists. eexists.
  split; [vm_compute; reflexivity|].
  split; [vm_compute; reflexivity|].
  repeat split.
  intros (_ & _ & H & _). vm_compute in H. apply H. reflexivity.
Qed.

(** C7 (amended).  The normalization step does not clamp: on every input with
    a non-zero total, the quote is computed with each employee count exactly as
    parsed, sign included.  [employeeInfo] reports the parsed counts; the DBL
    line is the minimum-adjusted result of [calculateDBLPremium] on the parsed
    counts; the PFL figures, the optional line and every per-employee figure
    use the sum of the parsed counts.  No amount of the result is negative
    when the parsed employee counts, the parsed count over the wage threshold
    and the parsed payroll below it are all non-negative. *)
Theorem counts_are_used_as_parsed
    (fd : FormData.t) (log : list consoleLine) (q : NY.QuoteResult) :
  NY.calculateQuote fd = (log, Normal q) ->
  ~ headcountOf fd == 0 ->
  NY.employeeInfo q
  = Some (NY.EmployeeInfo.mk (maleCountOf fd) (femaleCountOf fd)
                             (maleCountOf fd + femaleCountOf fd))
  /\ (exists rawDBL,
        NY.calculateDBLPremium (maleCountOf fd) (femaleCountOf fd) (tierOf fd)
                               (billingOf fd) (hospitalOf fd)
        = (log, Normal rawDBL)
        /\ NY.dblMonthly q = NY.applyMinimums rawDBL (billingOf fd))
  /\ NY.pflMonthly q
     = NY.Pfl.monthlyTotal
         (NY.calculatePFLPremium (overOf fd) (belowOf fd)
                                 (maleCountOf fd + femaleCountOf fd))
  /\ NY.optionalMonthly q
     = NY.calculateOptionalBenefits (maleCountOf fd + femaleCountOf fd) (selectionsOf fd)
  /\ NY.totalMonthly q = NY.dblMonthly q + NY.pflMonthly q + NY.optionalMonthly q
  /\ NY.perEmployeeBreakdown q
     = Some (NY.mkPerEmployee
               (NY.dblMonthly q / (maleCountOf fd + femaleCountOf fd))
               (NY.pflMonthly q / (maleCountOf fd + femaleCountOf fd))
               (NY.optionalMonthly q / (maleCountOf fd + femaleCountOf fd))
               (NY.totalMonthly q / (maleCountOf fd + femaleCountOf fd)))
  /\ (0 <= maleCountOf fd -> 0 <= femaleCountOf fd ->
      0 <= overOf fd -> 0 <= belowOf fd ->
      noNegativeAmount q).
Proof.
  intros H Hn. rewrite (calculateQuote_nonzero fd Hn) in H.
  destruct (rawDBLOf fd) as [l [d|e]] eqn:D; simpl in H; [|discriminate H].
  rewrite app_nil_r in H. inversion H; subst log q; clear H.
  split; [reflexivity|].
  split; [exists d; split; [exact D|reflexivity]|].
  split; [reflexivity|]. split; [reflexivity|]. split; [reflexivity|].
  split; [reflexivity|].
  intros Hm Hf Ho Hb.
  assert (Hd : 0 <= NY.applyMinimums d (billingOf fd)).
  { apply applyMinimums_nonneg. exact (rawDBL_nonneg _ _ _ _ _ _ _ Hm Hf D). }
  assert (Hp : 0 <= NY.Pfl.monthlyTotal (rawPFLOf fd)).
  { apply pflMonthly_nonneg; assumption. }
  assert (Hh : 0 <= headcountOf fd) by (unfold headcountOf; lra).
  assert (Hh' : 0 < headcountOf fd).
  { apply Qle_lteq in Hh. destruct Hh as [L|E]; [exact L|].
    exfalso. apply Hn. symmetry. exact E. }
  assert (Hopt : 0 <= rawOptionalOf fd) by (apply optional_nonneg; exact Hh).
  assert (Hmult : forall b : bool, 0 <= (if b then 12 else 3)).
  { intros []; discriminate. }
  unfold noNegativeAmount.
  cbn [NY.dblMonthly NY.pflMonthly NY.optionalMonthly NY.totalMonthly NY.displayAmount
       NY.breakdown NY.perEmployeeBreakdown NY.Breakdown.dblPremium
       NY.Breakdown.pflPremium NY.Breakdown.optionalCost NY.Breakdown.totalCost
       NY.dblPerEmployee NY.pflPerEmployee NY.optionalPerEmployee NY.totalPerEmployee].
  repeat split; auto 7 with amounts.
Qed.

(** Five male employees entered with a minus sign next to a hundred female
    employees: the DBL line is 317.50 a month, well above the floor, where a
    male count of 0 would give 325. *)
Definition negativeAmongManyForm : FormData.t :=
  form (JS.Str "-5") (JS.Str "100") (JS.Str "statutory") (JS.Str "annual") JS.Undefined.

Lemma counts_are_used_as_parsed_witness :
  exists q,
    NY.calculateQuote negativeAmongManyForm = ([], Normal q)
    /\ NY.employeeInfo q = Some (NY.EmployeeInfo.mk (-5) 100 (-5 + 100))
    /\ NY.dblMonthly q == 317.50
    /\ ~ (NY.dblMonthly q == 325)
    /\ NY.optionalMonthly q
       = NY.calculateOptionalBenefits (-5 + 100) (selectionsOf negativeAmongManyForm).
Proof.
  assert (E : exists q, NY.calculateQuote negativeAmongManyForm = ([], Normal q)).
  { vm_compute. eexists. reflexivity. }
  destruct E as [q Eq]. exists q. split; [exact Eq|].
  destruct (counts_are_used_as_parsed negativeAmongManyForm [] q Eq)
    as (H1 & (d & Hd & H2) & _ & H4 & _).
  - intro H. vm_compute in H. discriminate H.
  - split; [exact H1|].
    assert (E : d = -5 * 1.50 + 100 * 3.25).
    { assert (R : NY.calculateDBLPremium
                    (maleCountOf negativeAmongManyForm)
                    (femaleCountOf negativeAmongManyForm) (tierOf negativeAmongManyForm)
                    (billingOf negativeAmongManyForm) (hospitalOf negativeAmongManyForm)
                  = ([], Normal (-5 * 1.50 + 100 * 3.25))) by reflexivity.
      rewrite R in Hd. inversion Hd. reflexivity. }
    split; [|split; [|exact H4]].
    + rewrite H2, E. vm_compute. reflexivity.
    + rewrite H2, E. intro X. vm_compute in X. discriminate X.
Defined.

(** ** C8: the estimate entry point *)

(** The values [calculateQuoteWithEstimate] works with. *)
Definition ratioOf (maleRatioArg : option Q) : Q :=
  match maleRatioArg with Some r => r | None => 0.5 end.
Definition statedHeadcountOf (fd : FormData.t) : Q :=
  JS.orZero (JS.parseInt (FormData.totalEmployees fd)).
Definition estimatedMalesOf (fd : FormData.t) (maleRatioArg : option Q) : Q :=
  JS.Math_round (statedHeadcountOf fd * ratioOf maleRatioArg).
Definition estimatedFemalesOf (fd : FormData.t) (maleRatioArg : option Q) : Q :=
  statedHeadcountOf fd - estimatedMalesOf fd maleRatioArg.

(** The form [calculateQuoteWithEstimate] hands over to [calculateQuote]. *)
Definition splitForm (fd : FormData.t) (maleRatioArg : option Q) : FormData.t :=
  FormData.withCounts fd (JS.Num (estimatedMalesOf fd maleRatioArg))
                         (JS.Num (estimatedFemalesOf fd maleRatioArg)).

(** [parseInt] gives back an integer that a form carries as a number, as long
    as the number prints in plain decimal notation. *)
Lemma parseInt_integer (z : Z) :
  (Z.abs z < 10 ^ 21)%Z ->
  JS.orZero (JS.parseInt (JS.Num (inject_Z z))) == inject_Z z.
Proof.
  intro B. cbn [JS.parseInt]. unfold JS.parseIntNumber.
  destruct (Qeq_bool (inject_Z z) 0) eqn:E0.
  - apply Qeq_bool_iff in E0. simpl. symmetry. exact E0.
  - assert (Z0 : z <> 0%Z).
    { intros ->. discriminate E0. }
    assert (A : Qabs (inject_Z z) = inject_Z (Z.abs z)) by reflexivity.
    rewrite A.
    destruct (Qle_bool (10 ^ 21) (inject_Z (Z.abs z))) eqn:E1.
    { exfalso. apply Qle_bool_iff in E1.
      change (10 ^ 21) with (inject_Z (10 ^ 21)) in E1.
      rewrite <- Zle_Qle in E1. lia. }
    destruct (Qle_bool (1 # 1000000) (inject_Z (Z.abs z))) eqn:E2.
    + cbn [Qnum Qden inject_Z]. rewrite Z.quot_1_r.
      unfold JS.orZero. rewrite E0. reflexivity.
    + exfalso.
      assert (L : 1 # 1000000 <= inject_Z (Z.abs z)).
      { unfold Qle. simpl. lia. }
      apply Qle_bool_iff in L. congruence.
Qed.

Lemma parseInt_reads_back (q : Q) (z : Z) :
  q = inject_Z z -> Qabs q < 10 ^ 21 ->
  JS.orZero (JS.parseInt (JS.Num q)) == q.
Proof.
  intros -> B. apply parseInt_integer.
  change (Qabs (inject_Z z)) with (inject_Z (Z.abs z)) in B.
  change (10 ^ 21) with (inject_Z (10 ^ 21)) in B.
  rewrite <- Zlt_Qlt in B. exact B.
Qed.

(** What [parseInt(...) || 0] yields is an integer. *)
Lemma parseInt_integral (v : JS.value) :
  exists z, JS.orZero (JS.parseInt v) = inject_Z z.
Proof.
  assert (I : forall z, exists z', JS.orZero (Some (inject_Z z)) = inject_Z z').
  { intro z. unfold JS.orZero. destruct (Qeq_bool _ 0).
    - exists 0%Z. reflexivity.
    - exists z. reflexivity. }
  destruct v as [| |b|q|s]; try (exists 0%Z; reflexivity).
  - cbn [JS.parseInt]. unfold JS.parseIntNumber.
    destruct (Qeq_bool q 0); [exists 0%Z; reflexivity|].
    destruct (Qle_bool _ _); [apply I|].
    destruct (Qle_bool _ _); apply I.
  - cbn [JS.parseInt]. unfold JS.parseIntString.
    destruct (JS.readSign _) as [sign s1].
    destruct (match s1 with
              | String "0" (String "x" r) | String "0" (String "X" r) => (16%Z, r)
              | _ => (10%Z, s1)
              end) as [radix s2].
    destruct (JS.readDigits radix s2 None 0) as [[[n|] k] r].
    + apply I.
    + exists 0%Z. reflexivity.
Qed.



(** Seven employees and no gender split: the default ratio gives
    [round(3.5) = 4] males and 3 females. *)
Definition headcountOnlyForm : FormData.t :=
  FormData.mk JS.Undefined JS.Undefined (JS.Str "7") (JS.Str "statutory")
              (JS.Str "annual") JS.Undefined JS.Undefined JS.Undefined JS.Undefined
              JS.Undefined JS.Undefined JS.Undefined JS.Undefined JS.Undefined
              JS.Undefined.


(** ** C9: the hospital rider *)

(** With nobody covered the rider changes nothing: both premiums are 0. *)
Lemma hospital_rider_free_without_employees :
  returnsAmount
    (NY.calculateDBLPremium 0 0 (JS.Str "statutory") (JS.Str "annual") false) 0
  /\ returnsAmount
       (NY.calculateDBLPremium 0 0 (JS.Str "statutory") (JS.Str "annual") true) 0
  /\ ~ (0 < 0).
Proof.
  split; [vm_compute; reflexivity|].
  split; [vm_compute; reflexivity|].
  intro H. discriminate H.
Qed.

Lemma rider_gap (m f r rH s sH : Q) :
  0 <= m -> 0 <= f -> 0 < m + f -> r < rH -> s < sH ->
  m * r + f * s < m * rH + f * sH.
Proof.
  intros Hm Hf Hpos Hr Hs.
  assert (Pm : 0 <= m * (rH - r)) by (apply Qmult_le_0_compat; lra).
  assert (Pf : 0 <= f * (sH - s)) by (apply Qmult_le_0_compat; lra).
  destruct (Qlt_le_dec 0 m) as [L|L].
  - assert (S : 0 < m * (rH - r)) by (apply Qmult_lt_0_compat; lra).
    lra.
  - assert (S : 0 < f * (sH - s)) by (apply Qmult_lt_0_compat; lra).
    lra.
Qed.

(** C9 (amended).  Every [*WithHospital] unit rate of the rate table exceeds
    its base rate; hence for each of the six tiers, either billing frequency
    and non-negative employee counts of which at least one is positive,
    enabling the hospital rider strictly increases the DBL monthly premium. *)
Theorem hospital_rider_strictly_increases_DBL
    (maleCount femaleCount : Q) (tier : string) (billingType : JS.value) :
  In tier tierCodes ->
  0 <= maleCount -> 0 <= femaleCount -> 0 < maleCount + femaleCount ->
  Forall (fun t => hospitalDearer (NY.annual t) /\ hospitalDearer (NY.quarterly t))
         (map snd NY.DBL_RATES)
  /\ exists base withHospital,
       NY.calculateDBLPremium maleCount femaleCount (JS.Str tier) billingType false
       = ([], Normal base)
       /\ NY.calculateDBLPremium maleCount femaleCount (JS.Str tier) billingType true
          = ([], Normal withHospital)
       /\ base < withHospital.
Proof.
  intros Ht Hm Hf Hpos. split.
  { unfold NY.DBL_RATES. simpl. repeat constructor. }
  unfold NY.calculateDBLPremium.
  destruct (recognized_tier_is_own tier Ht) as [t G]. rewrite G.
  destruct (own_tier_sound _ _ G) as [[_ [A1 A2]] [_ [B1 B2]]].
  destruct (JS.strictEq billingType (JS.Str "quarterly"));
    eexists; eexists; (split; [reflexivity|]); (split; [reflexivity|]);
    apply rider_gap; assumption.
Qed.

Lemma hospital_rider_strictly_increases_DBL_witness :
  exists base withHospital,
    NY.calculateDBLPremium 2 3 (JS.Str "enriched2x") (JS.Str "quarterly") false
    = ([], Normal base)
    /\ NY.calculateDBLPremium 2 3 (JS.Str "enriched2x") (JS.Str "quarterly") true
       = ([], Normal withHospital)
    /\ base < withHospital.
Proof.
  apply (hospital_rider_strictly_increases_DBL 2 3 "enriched2x" (JS.Str "quarterly")).
  - unfold tierCodes. simpl. tauto.
  - discriminate.
  - discriminate.
  - reflexivity.
Defined.

(** ** C10: the PFL line does not depend on the DBL options *)

(** The PFL line as a function of the four properties it is rated on. *)
Lemma pflMonthly_determined (fd : FormData.t) (log : list consoleLine) (q : NY.QuoteResult) :
  NY.calculateQuote fd = (log, Normal q) ->
  NY.pflMonthly q
  = if Qeq_bool (headcountOf fd) 0 then 0 else NY.Pfl.monthlyTotal (rawPFLOf fd).
Proof.
  intro H. destruct (Qeq_bool (headcountOf fd) 0) eqn:E.
  - apply Qeq_bool_iff in E. rewrite (calculateQuote_zero fd E) in H.
    inversion H. reflexivity.
  - assert (N : ~ headcountOf fd == 0).
    { intro Z. apply Qeq_bool_iff in Z. congruence. }
    rewrite (calculateQuote_nonzero fd N) in H.
    destruct (rawDBLOf fd) as [l [d|e]]; simpl in H; [|discriminate H].
    inversion H. reflexivity.
Qed.

(** [calculateQuote] returns a quote unless the tier is a name inherited from
    [Object.prototype]. *)
Lemma calculateQuote_returns (fd : FormData.t) :
  getProperty NY.DBL_RATES (JS.or (tierOf fd) (JS.Str "statutory")) <> Inherited ->
  exists log q, NY.calculateQuote fd = (log, Normal q).
Proof.
  intro H. destruct (Qeq_dec (headcountOf fd) 0) as [Z|N].
  - rewrite (calculateQuote_zero fd Z). eexists. eexists. reflexivity.
  - rewrite (calculateQuote_nonzero fd N).
    unfold rawDBLOf, NY.calculateDBLPremium.
    destruct (getProperty _ _) as [t| |]; [| contradiction |];
      eexists; eexists; reflexivity.
Qed.

(** C10.  Two forms that agree on the employee counts, on
    [employeesOverNYSAWW] and on [payrollBelowNYSAWW] get the same [pflMonthly]
    from [calculateQuote], however they differ in [dblBenefits],
    [billingOption], [inHospitalRider] or any other property. *)
Theorem pfl_line_independent_of_DBL_options
    (fd1 fd2 : FormData.t) (log1 log2 : list consoleLine) (q1 q2 : NY.QuoteResult) :
  FormData.maleEmployees fd1 = FormData.maleEmployees fd2 ->
  FormData.femaleEmployees fd1 = FormData.femaleEmployees fd2 ->
  FormData.employeesOverNYSAWW fd1 = FormData.employeesOverNYSAWW fd2 ->
  FormData.payrollBelowNYSAWW fd1 = FormData.payrollBelowNYSAWW fd2 ->
  NY.calculateQuote fd1 = (log1, Normal q1) ->
  NY.calculateQuote fd2 = (log2, Normal q2) ->
  NY.pflMonthly q1 = NY.pflMonthly q2.
Proof.
  intros Hm Hf Ho Hb H1 H2.
  rewrite (pflMonthly_determined _ _ _ H1), (pflMonthly_determined _ _ _ H2).
  unfold rawPFLOf, headcountOf, maleCountOf, femaleCountOf, overOf, belowOf.
  rewrite Hm, Hf, Ho, Hb. reflexivity.
Qed.

(** Three men and two women, one of them over the wage threshold, the others
    earning 100,000 together; quoted once for the statutory tier billed
    annually, once for the richest tier billed quarterly with the rider. *)
Definition plainForm : FormData.t :=
  FormData.mk (JS.Str "3") (JS.Str "2") JS.Undefined (JS.Str "statutory")
              (JS.Str "annual") JS.Undefined JS.Undefined JS.Undefined (JS.Str "1")
              (JS.Str "100000") JS.Undefined JS.Undefined JS.Undefined JS.Undefined
              JS.Undefined.

Definition richForm : FormData.t :=
  FormData.mk (JS.Str "3") (JS.Str "2") JS.Undefined (JS.Str "enriched5x")
              (JS.Str "quarterly") (JS.Str "on") JS.Undefined JS.Undefined (JS.Str "1")
              (JS.Str "100000") JS.Undefined JS.Undefined JS.Undefined JS.Undefined
              JS.Undefined.

Lemma pfl_line_independent_of_DBL_options_witness :
  exists q1 q2,
    NY.calculateQuote plainForm = ([], Normal q1)
    /\ NY.calculateQuote richForm = ([], Normal q2)
    /\ ~ (NY.dblMonthly q1 == NY.dblMonthly q2)
    /\ NY.pflMonthly q1 = NY.pflMonthly q2
    /\ NY.pflMonthly q1 == (411.91 + 432) / 12.
Proof.
  eexists. eexists.
  split; [vm_compute; reflexivity|].
  split; [vm_compute; reflexivity|].
  split; [intro H; vm_compute in H; discriminate H|].
  split.
  - apply (pfl_line_independent_of_DBL_options plainForm richForm [] []);
      reflexivity.
  - vm_compute. reflexivity.
Defined.

(** * Further properties of the two calculators *)

(** ** The minimum floor *)

Lemma floor_or_premium (p bound k c : Q) :
  0 < k -> bound / k == c ->
  (if JS.ltb (p * k) bound then bound / k else p) == Qmax p c.
Proof.
  intros Hk Hc. rewrite <- Hc. destruct (JS.ltb (p * k) bound) eqn:E.
  - apply ltb_lt in E. symmetry. apply Q.max_r.
    apply Qle_shift_div_l; [exact Hk|]. apply Qlt_le_weak. exact E.
  - apply ltb_ge in E. symmetry. apply Q.max_l.
    apply Qle_shift_div_r; [exact Hk|]. exact E.
Qed.

Lemma ny_applyMinimums_cases (p : Q) (billingType : JS.value) :
  NY.applyMinimums p billingType
  == if JS.strictEq billingType (JS.Str "annual") then Qmax p (125 / 12)
     else if JS.strictEq billingType (JS.Str "quarterly") then Qmax p (35 / 3)
     else p.
Proof.
  unfold NY.applyMinimums.
  destruct (JS.strictEq billingType (JS.Str "annual")).
  - cbv zeta. apply floor_or_premium; reflexivity.
  - destruct (JS.strictEq billingType (JS.Str "quarterly")); [|reflexivity].
    cbv zeta. apply floor_or_premium; reflexivity.
Qed.

Lemma ny_applyMinimums_annual (p : Q) :
  NY.applyMinimums p (JS.Str "annual") == Qmax p (125 / 12).
Proof. rewrite ny_applyMinimums_cases. reflexivity. Qed.

Lemma ny_applyMinimums_quarterly (p : Q) :
  NY.applyMinimums p (JS.Str "quarterly") == Qmax p (35 / 3).
Proof. rewrite ny_applyMinimums_cases. reflexivity. Qed.

Lemma ny_annual_floor_reached (p : Q) :
  125 <= NY.applyMinimums p (JS.Str "annual") * 12.
Proof.
  rewrite ny_applyMinimums_annual. assert (M := Q.le_max_r p (125 / 12)).
  set (m := Qmax p (125 / 12)) in *.
  apply Qle_trans with (125 / 12 * 12); [discriminate|].
  apply Qmult_le_compat_r; [exact M|discriminate].
Qed.

Lemma ny_quarterly_floor_reached (p : Q) :
  35 <= NY.applyMinimums p (JS.Str "quarterly") * 3.
Proof.
  rewrite ny_applyMinimums_quarterly. assert (M := Q.le_max_r p (35 / 3)).
  set (m := Qmax p (35 / 3)) in *.
  apply Qle_trans with (35 / 3 * 3); [discriminate|].
  apply Qmult_le_compat_r; [exact M|discriminate].
Qed.

(** X1.  [applyMinimums] of the rate-card engine never lowers a premium, is
    monotone and idempotent, and brings an annual premium to at least 125 a
    year and a quarterly one to at least 35 a quarter: it is the maximum of
    the premium and the floor expressed per month. *)
Theorem ny_applyMinimums_is_a_floor (p p' : Q) (billingType : JS.value) :
  p <= NY.applyMinimums p billingType
  /\ NY.applyMinimums (NY.applyMinimums p billingType) billingType
     == NY.applyMinimums p billingType
  /\ NY.applyMinimums (Qmin p p') billingType <= NY.applyMinimums p' billingType
  /\ NY.applyMinimums p (JS.Str "annual") == Qmax p (125 / 12)
  /\ NY.applyMinimums p (JS.Str "quarterly") == Qmax p (35 / 3)
  /\ 125 <= NY.applyMinimums p (JS.Str "annual") * 12
  /\ 35 <= NY.applyMinimums p (JS.Str "quarterly") * 3.
Proof.
  assert (A := ny_applyMinimums_annual p).
  assert (B := ny_applyMinimums_quarterly p).
  assert (L : Qmin p p' <= p') by apply Q.le_min_r.
  assert (I : forall c, Qmax (Qmax p c) c == Qmax p c).
  { intro c. apply Q.max_l. apply Q.le_max_r. }
  assert (R := ny_applyMinimums_cases p billingType).
  assert (R' := ny_applyMinimums_cases p' billingType).
  assert (Rm := ny_applyMinimums_cases (Qmin p p') billingType).
  assert (Rr := ny_applyMinimums_cases (NY.applyMinimums p billingType) billingType).
  split; [|split; [|split; [|split; [exact A|split; [exact B|split]]]]].
  - rewrite R.
    destruct (JS.strictEq billingType (JS.Str "annual")); [apply Q.le_max_l|].
    destruct (JS.strictEq billingType (JS.Str "quarterly")); [apply Q.le_max_l|].
    apply Qle_refl.
  - rewrite Rr.
    destruct (JS.strictEq billingType (JS.Str "annual")).
    { rewrite R. apply I. }
    destruct (JS.strictEq billingType (JS.Str "quarterly")).
    { rewrite R. apply I. }
    reflexivity.
  - rewrite Rm, R'.
    destruct (JS.strictEq billingType (JS.Str "annual")).
    { apply Q.max_le_compat_r. exact L. }
    destruct (JS.strictEq billingType (JS.Str "quarterly")).
    { apply Q.max_le_compat_r. exact L. }
    exact L.
  - apply ny_annual_floor_reached.
  - apply ny_quarterly_floor_reached.
Qed.

Lemma strictEq_Str_true (v : JS.value) (s : string) :
  JS.strictEq v (JS.Str s) = true -> v = JS.Str s.
Proof.
  destruct v; simpl; try discriminate.
  intro H. apply String.eqb_eq in H. congruence.
Qed.

(** X2.  The two [applyMinimums] agree on every billing type except
    ["quarterlyPayroll"]: the flat-rate calculator floors it at 35 a quarter,
    the rate-card engine leaves the premium as it is. *)
Theorem applyMinimums_engines_differ_on_quarterlyPayroll (p : Q) (billingType : JS.value) :
  NY.applyMinimums p billingType
  == (if JS.strictEq billingType (JS.Str "quarterlyPayroll") then p
      else Legacy.applyMinimums p billingType)
  /\ Legacy.applyMinimums p (JS.Str "quarterlyPayroll") == Qmax p (35 / 3).
Proof.
  split.
  - destruct (JS.strictEq billingType (JS.Str "quarterlyPayroll")) eqn:E.
    + apply strictEq_Str_true in E. subst billingType. reflexivity.
    + unfold NY.applyMinimums, Legacy.applyMinimums, Legacy.quarterlyLike.
      rewrite E, orb_false_r. reflexivity.
  - unfold Legacy.applyMinimums, Legacy.quarterlyLike.
    cbn [JS.strictEq String.eqb Ascii.eqb Bool.eqb orb].
    apply floor_or_premium; reflexivity.
Qed.

(** ** Period scaling and per-employee figures of a rate-card quote *)

(** X3.  In a quote for a non-zero headcount the multiplier is 3 and the period
    ["quarter"] exactly when the billing option is ["quarterly"], 12 and
    ["year"] otherwise; [displayAmount] and every line of [breakdown] are the
    monthly figure times the multiplier, and [totalCost] is [displayAmount]. *)
Theorem ny_quote_period_scaling
    (fd : FormData.t) (log : list consoleLine) (q : NY.QuoteResult) :
  NY.calculateQuote fd = (log, Normal q) ->
  ~ headcountOf fd == 0 ->
  NY.periodMultiplier q
  = Some (if JS.strictEq (billingOf fd) (JS.Str "quarterly") then 3 else 12)
  /\ NY.billingPeriod q
     = (if JS.strictEq (billingOf fd) (JS.Str "quarterly") then "quarter" else "year")
  /\ NY.displayAmount q
     == NY.totalMonthly q
        * (if JS.strictEq (billingOf fd) (JS.Str "quarterly") then 3 else 12)
  /\ NY.Breakdown.dblPremium (NY.breakdown q)
     == NY.dblMonthly q
        * (if JS.strictEq (billingOf fd) (JS.Str "quarterly") then 3 else 12)
  /\ NY.Breakdown.pflPremium (NY.breakdown q)
     == NY.pflMonthly q
        * (if JS.strictEq (billingOf fd) (JS.Str "quarterly") then 3 else 12)
  /\ NY.Breakdown.optionalCost (NY.breakdown q)
     == NY.optionalMonthly q
        * (if JS.strictEq (billingOf fd) (JS.Str "quarterly") then 3 else 12)
  /\ NY.Breakdown.totalCost (NY.breakdown q) == NY.displayAmount q.
Proof.
  intros H Hn. rewrite (calculateQuote_nonzero fd Hn) in H.
  destruct (rawDBLOf fd) as [l [d|e]]; simpl in H; [|discriminate H].
  inversion H; subst log q; clear H.
  cbn [NY.periodMultiplier NY.billingPeriod NY.displayAmount NY.totalMonthly
       NY.dblMonthly NY.pflMonthly NY.optionalMonthly NY.breakdown
       NY.Breakdown.dblPremium NY.Breakdown.pflPremium NY.Breakdown.optionalCost
       NY.Breakdown.totalCost].
  destruct (JS.strictEq (billingOf fd) (JS.Str "quarterly"));
    cbn [String.eqb Ascii.eqb Bool.eqb]; repeat split; reflexivity.
Qed.

Lemma ny_quote_period_scaling_witness :
  exists q,
    NY.calculateQuote quarterlyForm = ([], Normal q)
    /\ NY.periodMultiplier q = Some 3
    /\ NY.billingPeriod q = "quarter"
    /\ NY.displayAmount q == NY.totalMonthly q * 3.
Proof.
  eexists. split; [vm_compute; reflexivity|].
  destruct (ny_quote_period_scaling quarterlyForm [] _ eq_refl) as (H1 & H2 & H3 & _).
  - intro H. vm_compute in H. discriminate H.
  - split; [exact H1|]. split; [exact H2|exact H3].
Defined.

Lemma headcount_at_least_one (fd : FormData.t) :
  0 <= maleCountOf fd -> 0 <= femaleCountOf fd -> ~ headcountOf fd == 0 ->
  1 <= headcountOf fd.
Proof.
  unfold headcountOf, maleCountOf, femaleCountOf.
  destruct (parseInt_integral (FormData.maleEmployees fd)) as [m ->].
  destruct (parseInt_integral (FormData.femaleEmployees fd)) as [f ->].
  intros Hm Hf Hn.
  change 0 with (inject_Z 0) in Hm, Hf. rewrite <- Zle_Qle in Hm, Hf.
  rewrite <- inject_Z_plus. change 1 with (inject_Z 1). rewrite <- Zle_Qle.
  assert (N : (m + f)%Z <> 0%Z).
  { intro Z. apply Hn. rewrite <- inject_Z_plus, Z. reflexivity. }
  lia.
Qed.

Lemma share_at_most_whole (a n : Q) : 0 <= a -> 1 <= n -> a / n <= a.
Proof.
  intros Ha Hn. apply Qle_shift_div_r; [lra|].
  assert (P : 0 <= a * (n - 1)) by (apply Qmult_le_0_compat; lra).
  lra.
Qed.

(** X4.  In a quote for a non-zero headcount each per-employee figure is the
    monthly figure of its line divided by the sum of the parsed counts, and
    with non-negative parsed inputs no per-employee figure exceeds the monthly
    figure of its line. *)
Theorem ny_quote_per_employee_figures
    (fd : FormData.t) (log : list consoleLine) (q : NY.QuoteResult) :
  NY.calculateQuote fd = (log, Normal q) ->
  ~ headcountOf fd == 0 ->
  0 <= maleCountOf fd -> 0 <= femaleCountOf fd ->
  0 <= overOf fd -> 0 <= belowOf fd ->
  exists p,
    NY.perEmployeeBreakdown q = Some p
    /\ NY.dblPerEmployee p = NY.dblMonthly q / headcountOf fd
    /\ NY.pflPerEmployee p = NY.pflMonthly q / headcountOf fd
    /\ NY.optionalPerEmployee p = NY.optionalMonthly q / headcountOf fd
    /\ NY.totalPerEmployee p = NY.totalMonthly q / headcountOf fd
    /\ NY.dblPerEmployee p <= NY.dblMonthly q
    /\ NY.pflPerEmployee p <= NY.pflMonthly q
    /\ NY.optionalPerEmployee p <= NY.optionalMonthly q
    /\ NY.totalPerEmployee p <= NY.totalMonthly q.
Proof.
  intros H Hn Hm Hf Ho Hb.
  assert (H1 := headcount_at_least_one fd Hm Hf Hn).
  rewrite (calculateQuote_nonzero fd Hn) in H.
  destruct (rawDBLOf fd) as [l [d|e]] eqn:D; simpl in H; [|discriminate H].
  inversion H; subst log q; clear H.
  assert (Hd : 0 <= NY.applyMinimums d (billingOf fd)).
  { apply applyMinimums_nonneg. exact (rawDBL_nonneg _ _ _ _ _ _ _ Hm Hf D). }
  assert (Hp : 0 <= NY.Pfl.monthlyTotal (rawPFLOf fd)).
  { apply pflMonthly_nonneg; assumption. }
  assert (Hopt : 0 <= rawOptionalOf fd) by (apply optional_nonneg; lra).
  eexists. split; [reflexivity|].
  cbn [NY.dblPerEmployee NY.pflPerEmployee NY.optionalPerEmployee NY.totalPerEmployee
       NY.totalMonthly NY.dblMonthly NY.pflMonthly NY.optionalMonthly].
  repeat (split; [reflexivity|]).
  repeat split; apply share_at_most_whole; auto with amounts.
Qed.

Lemma ny_quote_per_employee_figures_witness :
  exists q p,
    NY.calculateQuote plainForm = ([], Normal q)
    /\ NY.perEmployeeBreakdown q = Some p
    /\ NY.totalPerEmployee p = NY.totalMonthly q / headcountOf plainForm
    /\ NY.totalPerEmployee p <= NY.totalMonthly q.
Proof.
  assert (E : exists q, NY.calculateQuote plainForm = ([], Normal q)).
  { vm_compute. eexists. reflexivity. }
  destruct E as [q Eq]. exists q.
  destruct (ny_quote_per_employee_figures plainForm [] q Eq)
    as (p & H1 & _ & _ & _ & H5 & _ & _ & _ & H9).
  - intro H. vm_compute in H. discriminate H.
  - vm_compute. discriminate.
  - vm_compute. discriminate.
  - vm_compute. discriminate.
  - vm_compute. discriminate.
  - exists p. split; [exact Eq|]. split; [exact H1|]. split; [exact H5|exact H9].
Defined.

(** ** Billing options the rate card does not know *)

Lemma dbl_priced_at_annual_rates (m f : Q) (tier billingType : JS.value) (h : bool) :
  JS.strictEq billingType (JS.Str "quarterly") = false ->
  NY.calculateDBLPremium m f tier billingType h
  = NY.calculateDBLPremium m f tier (JS.Str "annual") h.
Proof.
  intro H. unfold NY.calculateDBLPremium. rewrite H. reflexivity.
Qed.

(** X5.  A billing option that is neither ["annual"] nor ["quarterly"] (such
    as ["quarterlyPayroll"] or ["monthly"]) is priced at the annual rates and
    reported with period ["year"] and multiplier 12, but no minimum applies to
    it: [dblMonthly] is the raw DBL premium. *)
Theorem ny_unknown_billing_option_has_no_minimum
    (fd : FormData.t) (log : list consoleLine) (rawDBL : Q) :
  JS.strictEq (billingOf fd) (JS.Str "annual") = false ->
  JS.strictEq (billingOf fd) (JS.Str "quarterly") = false ->
  ~ headcountOf fd == 0 ->
  rawDBLOf fd = (log, Normal rawDBL) ->
  NY.calculateDBLPremium (maleCountOf fd) (femaleCountOf fd) (tierOf fd) (JS.Str "annual")
                         (hospitalOf fd)
  = (log, Normal rawDBL)
  /\ exists q,
       NY.calculateQuote fd = (log, Normal q)
       /\ NY.dblMonthly q = rawDBL
       /\ NY.billingPeriod q = "year"
       /\ NY.periodMultiplier q = Some 12.
Proof.
  intros Ha Hq Hn Hd. split.
  - rewrite <- Hd. unfold rawDBLOf. symmetry.
    apply dbl_priced_at_annual_rates. exact Hq.
  - rewrite (calculateQuote_nonzero fd Hn), Hd. simpl. rewrite app_nil_r.
    eexists. split; [reflexivity|].
    cbn [NY.dblMonthly NY.billingPeriod NY.periodMultiplier].
    unfold NY.applyMinimums. rewrite Ha, Hq. repeat split.
Qed.

(** One male employee on the statutory tier, billed "monthly". *)
Definition monthlyForm : FormData.t :=
  form (JS.Str "1") (JS.Str "0") (JS.Str "statutory") (JS.Str "monthly") JS.Undefined.

Lemma ny_unknown_billing_option_has_no_minimum_witness :
  exists q,
    NY.calculateQuote monthlyForm = ([], Normal q)
    /\ NY.dblMonthly q = 1 * 1.50 + 0 * 3.25
    /\ NY.billingPeriod q = "year"
    /\ NY.periodMultiplier q = Some 12.
Proof.
  apply (ny_unknown_billing_option_has_no_minimum monthlyForm []).
  - reflexivity.
  - reflexivity.
  - intro H. vm_compute in H. discriminate H.
  - reflexivity.
Defined.

Lemma quote_lines (fd : FormData.t) (log : list consoleLine) (q : NY.QuoteResult) :
  NY.calculateQuote fd = (log, Normal q) ->
  ~ headcountOf fd == 0 ->
  exists d,
    rawDBLOf fd = (log, Normal d)
    /\ NY.dblMonthly q = NY.applyMinimums d (billingOf fd)
    /\ NY.pflMonthly q = NY.Pfl.monthlyTotal (rawPFLOf fd)
    /\ NY.optionalMonthly q = rawOptionalOf fd
    /\ NY.totalMonthly q = NY.dblMonthly q + NY.pflMonthly q + NY.optionalMonthly q
    /\ NY.displayAmount q
       = NY.totalMonthly q
         * (if JS.strictEq (billingOf fd) (JS.Str "quarterly") then 3 else 12).
Proof.
  intros H Hn. rewrite (calculateQuote_nonzero fd Hn) in H.
  destruct (rawDBLOf fd) as [l [d|e]]; simpl in H; [|discriminate H].
  rewrite app_nil_r in H. inversion H; subst log q; clear H.
  exists d. split; [reflexivity|].
  cbn [NY.dblMonthly NY.pflMonthly NY.optionalMonthly NY.totalMonthly NY.displayAmount].
  destruct (JS.strictEq (billingOf fd) (JS.Str "quarterly")); repeat split.
Qed.

(** X6.  With non-negative parsed inputs, a quote for at least one employee
    is never below the minimum of its billing option: an annual quote displays
    at least 125, a quarterly one at least 35. *)
Theorem ny_quote_displays_at_least_the_minimum
    (fd : FormData.t) (log : list consoleLine) (q : NY.QuoteResult) :
  NY.calculateQuote fd = (log, Normal q) ->
  ~ headcountOf fd == 0 ->
  0 <= headcountOf fd -> 0 <= overOf fd -> 0 <= belowOf fd ->
  (JS.strictEq (billingOf fd) (JS.Str "annual") = true -> 125 <= NY.displayAmount q)
  /\ (JS.strictEq (billingOf fd) (JS.Str "quarterly") = true -> 35 <= NY.displayAmount q).
Proof.
  intros H Hn Hh Ho Hb.
  destruct (quote_lines fd log q H Hn) as (d & _ & Ed & Ep & Eo & Et & Ea).
  assert (Hp : 0 <= NY.pflMonthly q).
  { rewrite Ep. apply pflMonthly_nonneg; assumption. }
  assert (Hopt : 0 <= NY.optionalMonthly q).
  { rewrite Eo. apply optional_nonneg; exact Hh. }
  assert (A := ny_annual_floor_reached d).
  assert (B := ny_quarterly_floor_reached d).
  rewrite Ea, Et.
  split; intro E; apply strictEq_Str_true in E; rewrite E in Ed; rewrite E;
    cbn [JS.strictEq String.eqb Ascii.eqb Bool.eqb]; rewrite <- Ed in *; lra.
Qed.

Lemma ny_quote_displays_at_least_the_minimum_witness :
  exists q,
    NY.calculateQuote
      (form (JS.Str "1") (JS.Str "0") (JS.Str "statutory") JS.Undefined JS.Undefined)
    = ([], Normal q)
    /\ 125 <= NY.displayAmount q.
Proof.
  eexists. split; [vm_compute; reflexivity|].
  destruct (ny_quote_displays_at_least_the_minimum
              (form (JS.Str "1") (JS.Str "0") (JS.Str "statutory") JS.Undefined
                    JS.Undefined)
              [] _ eq_refl) as [A _].
  - intro H. vm_compute in H. discriminate H.
  - discriminate.
  - discriminate.
  - discriminate.
  - apply A. reflexivity.
Defined.

(** ** The DBL premium as a function of the counts, the tier and the billing *)

Lemma weighted_sum_monotone (m1 m2 f1 f2 r s : Q) :
  0 < r -> 0 < s -> m1 <= m2 -> f1 <= f2 ->
  m1 * r + f1 * s <= m2 * r + f2 * s.
Proof.
  intros Hr Hs Hm Hf. apply Qplus_le_compat; apply Qmult_le_compat_r;
    auto using Qlt_le_weak.
Qed.

(** X7.  For a recognized tier the DBL premium is monotone in the employee
    counts: with no fewer male and no fewer female employees the premium is
    never lower, whatever the billing option and the rider choice. *)
Theorem dbl_premium_monotone_in_counts
    (m1 f1 m2 f2 : Q) (tier : string) (billingType : JS.value) (includeHospital : bool) :
  In tier tierCodes ->
  m1 <= m2 -> f1 <= f2 ->
  exists d1 d2,
    NY.calculateDBLPremium m1 f1 (JS.Str tier) billingType includeHospital
    = ([], Normal d1)
    /\ NY.calculateDBLPremium m2 f2 (JS.Str tier) billingType includeHospital
       = ([], Normal d2)
    /\ d1 <= d2.
Proof.
  intros Ht Hm Hf. unfold NY.calculateDBLPremium.
  destruct (recognized_tier_is_own tier Ht) as [t G]. rewrite G.
  destruct (own_tier_sound _ _ G) as [[[A1 [A2 [A3 A4]]] _] [[B1 [B2 [B3 B4]]] _]].
  destruct (JS.strictEq billingType (JS.Str "quarterly")), includeHospital;
    eexists; eexists;
    (split; [reflexivity|]); (split; [reflexivity|]);
    apply weighted_sum_monotone; assumption.
Qed.

Lemma dbl_premium_monotone_in_counts_witness :
  exists d1 d2,
    NY.calculateDBLPremium 1 2 (JS.Str "enriched3x") (JS.Str "annual") true = ([], Normal d1)
    /\ NY.calculateDBLPremium 4 2 (JS.Str "enriched3x") (JS.Str "annual") true
       = ([], Normal d2)
    /\ d1 <= d2.
Proof.
  apply (dbl_premium_monotone_in_counts 1 2 4 2 "enriched3x" (JS.Str "annual") true).
  - unfold tierCodes. simpl. tauto.
  - discriminate.
  - discriminate.
Defined.

(** The rates of a recognized tier, looked up and evaluated. *)
Ltac read_rates :=
  cbn [NY.annual NY.quarterly NY.male NY.female NY.maleWithHospital
       NY.femaleWithHospital].
Ltac evaluate_tier t G := vm_compute in G; inversion G; subst t; clear G.

Lemma tier_at (i : nat) (tier : string) :
  nth_error tierCodes i = Some tier ->
  (i = 0%nat /\ tier = "statutory") \/ (i = 1%nat /\ tier = "enriched1.5x")
  \/ (i = 2%nat /\ tier = "enriched2x") \/ (i = 3%nat /\ tier = "enriched3x")
  \/ (i = 4%nat /\ tier = "enriched4x") \/ (i = 5%nat /\ tier = "enriched5x").
Proof.
  destruct i as [|[|[|[|[|[|i]]]]]]; simpl; intro H;
    try (injection H as <-; tauto).
  destruct i; discriminate H.
Qed.

(** X8.  The tiers of the rate card are priced in increasing order: for
    non-negative counts, a fixed billing option and a fixed rider choice, a
    tier later in the list statutory, 1.5x, 2x, 3x, 4x, 5x never costs less
    than an earlier one. *)
Theorem dbl_premium_monotone_in_tier
    (i j : nat) (tier1 tier2 : string) (maleCount femaleCount : Q)
    (billingType : JS.value) (includeHospital : bool) :
  nth_error tierCodes i = Some tier1 ->
  nth_error tierCodes j = Some tier2 ->
  (i <= j)%nat ->
  0 <= maleCount -> 0 <= femaleCount ->
  exists d1 d2,
    NY.calculateDBLPremium maleCount femaleCount (JS.Str tier1) billingType includeHospital
    = ([], Normal d1)
    /\ NY.calculateDBLPremium maleCount femaleCount (JS.Str tier2) billingType
                              includeHospital
       = ([], Normal d2)
    /\ d1 <= d2.
Proof.
  intros H1 H2 Hij Hm Hf.
  assert (I1 : In tier1 tierCodes) by (eapply nth_error_In; exact H1).
  assert (I2 : In tier2 tierCodes) by (eapply nth_error_In; exact H2).
  unfold NY.calculateDBLPremium.
  destruct (recognized_tier_is_own tier1 I1) as [t1 G1].
  destruct (recognized_tier_is_own tier2 I2) as [t2 G2].
  rewrite G1, G2.
  destruct (tier_at i tier1 H1) as [[-> ->]|[[-> ->]|[[-> ->]|[[-> ->]|[[-> ->]|[-> ->]]]]]];
    destruct (tier_at j tier2 H2)
      as [[-> ->]|[[-> ->]|[[-> ->]|[[-> ->]|[[-> ->]|[-> ->]]]]]];
    try lia;
    evaluate_tier t1 G1; evaluate_tier t2 G2;
    destruct (JS.strictEq billingType (JS.Str "quarterly")), includeHospital;
    eexists; eexists; (split; [reflexivity|]); (split; [reflexivity|]);
    read_rates; lra.
Qed.

Lemma dbl_premium_monotone_in_tier_witness :
  exists d1 d2,
    NY.calculateDBLPremium 3 4 (JS.Str "enriched1.5x") (JS.Str "quarterly") false
    = ([], Normal d1)
    /\ NY.calculateDBLPremium 3 4 (JS.Str "enriched4x") (JS.Str "quarterly") false
       = ([], Normal d2)
    /\ d1 <= d2.
Proof.
  apply (dbl_premium_monotone_in_tier 1 4 "enriched1.5x" "enriched4x" 3 4
           (JS.Str "quarterly") false); try reflexivity; try discriminate.
  lia.
Defined.

(** X9.  Quarterly billing is dearer per month: for a recognized tier and
    non-negative counts the monthly DBL premium at the quarterly rates is at
    least the one at the annual rates, and strictly more when somebody is
    covered. *)
Theorem dbl_quarterly_rates_exceed_annual
    (maleCount femaleCount : Q) (tier : string) (includeHospital : bool) :
  In tier tierCodes ->
  0 <= maleCount -> 0 <= femaleCount ->
  exists annual quarterly,
    NY.calculateDBLPremium maleCount femaleCount (JS.Str tier) (JS.Str "annual")
                           includeHospital
    = ([], Normal annual)
    /\ NY.calculateDBLPremium maleCount femaleCount (JS.Str tier) (JS.Str "quarterly")
                              includeHospital
       = ([], Normal quarterly)
    /\ annual <= quarterly
    /\ (0 < maleCount + femaleCount -> annual < quarterly).
Proof.
  intros Ht Hm Hf. unfold NY.calculateDBLPremium.
  destruct (recognized_tier_is_own tier Ht) as [t G]. rewrite G.
  cbn [JS.strictEq String.eqb Ascii.eqb Bool.eqb].
  unfold tierCodes in Ht. simpl in Ht.
  destruct Ht as [<-|[<-|[<-|[<-|[<-|[<-|[]]]]]]]; evaluate_tier t G;
    destruct includeHospital;
    eexists; eexists; (split; [reflexivity|]); (split; [reflexivity|]);
    read_rates; (split; [lra|intro; lra]).
Qed.

Lemma dbl_quarterly_rates_exceed_annual_witness :
  exists annual quarterly,
    NY.calculateDBLPremium 2 0 (JS.Str "statutory") (JS.Str "annual") false
    = ([], Normal annual)
    /\ NY.calculateDBLPremium 2 0 (JS.Str "statutory") (JS.Str "quarterly") false
       = ([], Normal quarterly)
    /\ annual <= quarterly
    /\ (0 < 2 + 0 -> annual < quarterly).
Proof.
  apply (dbl_quarterly_rates_exceed_annual 2 0 "statutory" false).
  - unfold tierCodes. simpl. tauto.
  - discriminate.
  - discriminate.
Defined.

(** ** The optional benefits *)

(** X10.  The cost of the optional benefits is proportional to the headcount:
    it is additive in the employee count and scales with it, whatever is
    selected. *)
Theorem optional_benefits_proportional_to_headcount
    (a b k : Q) (selections : NY.Selections.t) :
  NY.calculateOptionalBenefits (a + b) selections
  == NY.calculateOptionalBenefits a selections + NY.calculateOptionalBenefits b selections
  /\ NY.calculateOptionalBenefits (k * a) selections
     == k * NY.calculateOptionalBenefits a selections.
Proof.
  unfold NY.calculateOptionalBenefits.
  destruct selections as [[] [] [] [] []];
    cbn [NY.Selections.termLife15k NY.Selections.eap NY.Selections.nurseHelpline
         NY.Selections.addd50k NY.Selections.addd100k];
    split; ring.
Qed.

Lemma unit_price_3 : 36 / 12 == 3.
Proof. reflexivity. Qed.

Lemma unit_price_4_50 : 54 / 12 == 4.50.
Proof. reflexivity. Qed.

(** X11.  [calculateQuote] never charges both AD&D options: the two flags it
    derives from [adddBenefit] cannot both be set, so the optional line of a
    returned quote is at most 12.50 per employee (3 + 3 + 4.50 + 2);
    [calculateOptionalBenefits] itself would add both prices, 3 per
    employee, if it were handed both flags. *)
Theorem quote_charges_at_most_one_ADD_option
    (fd : FormData.t) (log : list consoleLine) (q : NY.QuoteResult) (n : Q) :
  NY.calculateQuote fd = (log, Normal q) ->
  0 <= headcountOf fd ->
  NY.Selections.addd50k (selectionsOf fd) && NY.Selections.addd100k (selectionsOf fd)
  = false
  /\ NY.optionalMonthly q <= 12.50 * headcountOf fd
  /\ NY.calculateOptionalBenefits n (NY.Selections.mk false false false true true)
     == n * 3.
Proof.
  intros H Hh.
  assert (X : NY.Selections.addd50k (selectionsOf fd)
              && NY.Selections.addd100k (selectionsOf fd) = false).
  { unfold selectionsOf. cbn [NY.Selections.addd50k NY.Selections.addd100k].
    destruct (JS.strictEq (FormData.adddBenefit fd) (JS.Str "50000")) eqn:E;
      [|reflexivity].
    apply strictEq_Str_true in E. rewrite E. reflexivity. }
  split; [exact X|]. split.
  - destruct (Qeq_dec (headcountOf fd) 0) as [Z|N].
    + rewrite (calculateQuote_zero fd Z) in H. inversion H; subst.
      cbn [NY.optionalMonthly]. rewrite Z. discriminate.
    + destruct (quote_lines fd log q H N) as (d & _ & _ & _ & Eo & _).
      rewrite Eo. unfold rawOptionalOf, NY.calculateOptionalBenefits.
      set (h := headcountOf fd) in *. clearbody h.
      destruct (selectionsOf fd) as [[] [] [] [] []];
        cbn [NY.Selections.termLife15k NY.Selections.eap NY.Selections.nurseHelpline
             NY.Selections.addd50k NY.Selections.addd100k] in *;
        try discriminate X;
        unfold NY.OPTIONAL_BENEFITS.termLife15k, NY.OPTIONAL_BENEFITS.eap,
               NY.OPTIONAL_BENEFITS.nurseHelpline, NY.OPTIONAL_BENEFITS.addd50k,
               NY.OPTIONAL_BENEFITS.addd100k;
        rewrite ?unit_price_3, ?unit_price_4_50; lra.
  - unfold NY.calculateOptionalBenefits.
    cbn [NY.Selections.termLife15k NY.Selections.eap NY.Selections.nurseHelpline
         NY.Selections.addd50k NY.Selections.addd100k].
    unfold NY.OPTIONAL_BENEFITS.addd50k, NY.OPTIONAL_BENEFITS.addd100k. ring.
Qed.

(** Four employees with every optional benefit ticked and the higher AD&D
    option chosen. *)
Definition allOptionsForm : FormData.t :=
  FormData.mk (JS.Str "3") (JS.Str "1") JS.Undefined (JS.Str "statutory")
              (JS.Str "annual") JS.Undefined JS.Undefined JS.Undefined JS.Undefined
              JS.Undefined (JS.Str "on") (JS.Bool true) (JS.Str "on") (JS.Str "100000")
              JS.Undefined.

Lemma quote_charges_at_most_one_ADD_option_witness :
  exists q,
    NY.calculateQuote allOptionsForm = ([], Normal q)
    /\ NY.optionalMonthly q == 12.50 * 4
    /\ NY.optionalMonthly q <= 12.50 * headcountOf allOptionsForm.
Proof.
  eexists. split; [vm_compute; reflexivity|]. split; [vm_compute; reflexivity|].
  apply (quote_charges_at_most_one_ADD_option allOptionsForm [] _ 0 eq_refl).
  discriminate.
Defined.

(** ** The PFL figures *)

(** X12.  In the result of [calculatePFLPremium] the two parts of the
    breakdown add up to the annual total; the per-employee figures are the
    totals divided by the employee count when the count is positive and 0
    otherwise; the employee count has no influence on the totals; and the
    totals are monotone: a higher count over the wage threshold and a higher
    payroll below it never lower them. *)
Theorem pfl_figures_are_consistent (over below over' below' n n' : Q) :
  over <= over' -> below <= below' ->
  NY.Pfl.pflFromOverCap (NY.Pfl.breakdown (NY.calculatePFLPremium over below n))
  + NY.Pfl.pflFromBelowCap (NY.Pfl.breakdown (NY.calculatePFLPremium over below n))
  = NY.Pfl.annualTotal (NY.calculatePFLPremium over below n)
  /\ NY.Pfl.annualPerEmployee (NY.calculatePFLPremium over below n)
     == (if JS.ltb 0 n
         then NY.Pfl.annualTotal (NY.calculatePFLPremium over below n) / n
         else 0)
  /\ NY.Pfl.monthlyPerEmployee (NY.calculatePFLPremium over below n)
     == (if JS.ltb 0 n
         then NY.Pfl.monthlyTotal (NY.calculatePFLPremium over below n) / n
         else 0)
  /\ NY.Pfl.annualTotal (NY.calculatePFLPremium over below n)
     = NY.Pfl.annualTotal (NY.calculatePFLPremium over below n')
  /\ NY.Pfl.monthlyTotal (NY.calculatePFLPremium over below n)
     = NY.Pfl.monthlyTotal (NY.calculatePFLPremium over below n')
  /\ NY.Pfl.annualTotal (NY.calculatePFLPremium over below n)
     <= NY.Pfl.annualTotal (NY.calculatePFLPremium over' below' n)
  /\ NY.Pfl.monthlyTotal (NY.calculatePFLPremium over below n)
     <= NY.Pfl.monthlyTotal (NY.calculatePFLPremium over' below' n).
Proof.
  intros Ho Hb. unfold NY.calculatePFLPremium.
  cbn [NY.Pfl.pflFromOverCap NY.Pfl.pflFromBelowCap NY.Pfl.breakdown NY.Pfl.annualTotal
       NY.Pfl.monthlyTotal NY.Pfl.annualPerEmployee NY.Pfl.monthlyPerEmployee].
  rewrite ltb_numOrZero.
  assert (M : JS.numOrZero over * NY.PFL_RATE.annualCapPerEmployee
              + JS.numOrZero below * NY.PFL_RATE.percentOfPayroll
              <= JS.numOrZero over' * NY.PFL_RATE.annualCapPerEmployee
                 + JS.numOrZero below' * NY.PFL_RATE.percentOfPayroll).
  { apply weighted_sum_monotone; try reflexivity; rewrite !numOrZero_eq; assumption. }
  split; [reflexivity|].
  split; [destruct (JS.ltb 0 n); [rewrite (numOrZero_eq n)|]; reflexivity|].
  split; [destruct (JS.ltb 0 n); [rewrite (numOrZero_eq n)|]; reflexivity|].
  split; [reflexivity|]. split; [reflexivity|]. split; [exact M|].
  apply Qmult_le_compat_r; [exact M|discriminate].
Qed.

Lemma pfl_figures_are_consistent_witness :
  NY.Pfl.annualPerEmployee (NY.calculatePFLPremium 1 20000 0) == 0
  /\ NY.Pfl.annualTotal (NY.calculatePFLPremium 1 20000 4)
     = NY.Pfl.annualTotal (NY.calculatePFLPremium 1 20000 9)
  /\ NY.Pfl.annualTotal (NY.calculatePFLPremium 1 20000 4)
     <= NY.Pfl.annualTotal (NY.calculatePFLPremium 2 30000 4).
Proof.
  destruct (pfl_figures_are_consistent 1 20000 2 30000 0 9) as (_ & H2 & _).
  - discriminate.
  - discriminate.
  - split; [exact H2|].
    destruct (pfl_figures_are_consistent 1 20000 2 30000 4 9)
      as (_ & _ & _ & H4 & _ & H6 & _).
    + discriminate.
    + discriminate.
    + split; [exact H4|exact H6].
Defined.

(** ** The estimated gender split *)

Lemma floor_below_integer (x : Q) (t : Z) :
  x < inject_Z t + 1 -> (Qfloor x <= t)%Z.
Proof.
  intro H.
  assert (L := Qfloor_le x).
  assert (S : inject_Z (Qfloor x) < inject_Z (t + 1)).
  { rewrite inject_Z_plus. eapply Qle_lt_trans; [exact L|exact H]. }
  rewrite <- Zlt_Qlt in S. lia.
Qed.

(** X13.  For a non-negative headcount and a male ratio between 0 and 1, the
    estimated split is sound: the two counts add up to the headcount, neither
    is negative, and neither exceeds the headcount. *)
Theorem estimated_split_is_sound (fd : FormData.t) (maleRatioArg : option Q) :
  0 <= ratioOf maleRatioArg -> ratioOf maleRatioArg <= 1 ->
  0 <= statedHeadcountOf fd ->
  estimatedMalesOf fd maleRatioArg + estimatedFemalesOf fd maleRatioArg
  == statedHeadcountOf fd
  /\ 0 <= estimatedMalesOf fd maleRatioArg
  /\ 0 <= estimatedFemalesOf fd maleRatioArg
  /\ estimatedMalesOf fd maleRatioArg <= statedHeadcountOf fd
  /\ estimatedFemalesOf fd maleRatioArg <= statedHeadcountOf fd.
Proof.
  intros R0 R1 T0.
  destruct (parseInt_integral (FormData.totalEmployees fd)) as [t Ht].
  fold (statedHeadcountOf fd) in Ht.
  unfold estimatedFemalesOf, estimatedMalesOf, JS.Math_round.
  set (T := statedHeadcountOf fd) in *. set (r := ratioOf maleRatioArg) in *.
  assert (P : 0 <= T * r) by (apply Qmult_le_0_compat; assumption).
  assert (U : T * r <= T).
  { assert (M : r * T <= 1 * T) by (apply Qmult_le_compat_r; assumption). lra. }
  split; [ring|].
  assert (F0 : 0 <= inject_Z (Qfloor (T * r + (1 # 2)))).
  { change 0 with (inject_Z 0). rewrite <- Zle_Qle.
    change 0%Z with (Qfloor 0). apply Qfloor_resp_le. lra. }
  split; [exact F0|].
  assert (B : (Qfloor (T * r + (1 # 2)) <= t)%Z).
  { apply floor_below_integer. rewrite <- Ht. lra. }
  rewrite Zle_Qle in B. rewrite <- Ht in B.
  split; [lra|]. split; [exact B|lra].
Qed.

Lemma estimated_split_is_sound_witness :
  estimatedMalesOf headcountOnlyForm None + estimatedFemalesOf headcountOnlyForm None
  == statedHeadcountOf headcountOnlyForm
  /\ estimatedMalesOf headcountOnlyForm None == 4
  /\ 0 <= estimatedFemalesOf headcountOnlyForm None.
Proof.
  destruct (estimated_split_is_sound headcountOnlyForm None) as (H1 & _ & H3 & _).
  - vm_compute. discriminate.
  - vm_compute. discriminate.
  - vm_compute. discriminate.
  - split; [exact H1|]. split; [vm_compute; reflexivity|exact H3].
Defined.

(** ** The flat-rate calculator *)

(** The three lines of a flat-rate quote, as [calculateQuote] computes them. *)
Definition legacyBaseOf (fd : FormData.t) : Q :=
  Legacy.calculateBasePremium
    (statedHeadcountOf fd)
    (Legacy.getDBLMultiplier (JS.or (FormData.dblBenefits fd) (JS.Str "statutory")))
    (billingOf fd)
    (JS.orZero (JS.parseFloat (FormData.totalPayroll fd))).
Definition legacyRidersOf (fd : FormData.t) : Q :=
  Legacy.calculateRidersCost (statedHeadcountOf fd) (checked (FormData.inHospitalRider fd))
                             (JS.or (FormData.addBenefit fd) JS.Null).
Definition legacyOptionalOf (fd : FormData.t) : Q :=
  Legacy.calculateOptionalBenefitsCost (statedHeadcountOf fd)
                                       (checked (FormData.termLife15k fd))
                                       (checked (FormData.eap fd))
                                       (checked (FormData.nurseHelpline fd)).

Lemma legacy_quote_nonzero (fd : FormData.t) :
  ~ statedHeadcountOf fd == 0 ->
  Legacy.calculateQuote fd
  = let lines := legacyBaseOf fd + legacyRidersOf fd + legacyOptionalOf fd in
    let total :=
      Legacy.addBillingFees (Legacy.applyMinimums lines (billingOf fd)) (billingOf fd) in
    let mult := if Legacy.quarterlyLike (billingOf fd) then 3 else 12 in
    Legacy.mkQuote (legacyBaseOf fd) (legacyRidersOf fd) (legacyOptionalOf fd) total
                   (total * mult)
                   (if Legacy.quarterlyLike (billingOf fd) then "quarter" else "year")
                   (Legacy.Breakdown.mk (legacyBaseOf fd * mult) (legacyRidersOf fd * mult)
                                        (legacyOptionalOf fd * mult) (total * mult)).
Proof.
  intro H. unfold Legacy.calculateQuote. fold (statedHeadcountOf fd).
  destruct (Qeq_bool (statedHeadcountOf fd) 0) eqn:E.
  - exfalso. apply H. apply Qeq_bool_iff. exact E.
  - fold (billingOf fd). destruct (Legacy.quarterlyLike (billingOf fd)); reflexivity.
Qed.

Lemma legacy_applyMinimums_cases (p : Q) (billingType : JS.value) :
  Legacy.applyMinimums p billingType
  == if JS.strictEq billingType (JS.Str "annual") then Qmax p (125 / 12)
     else if Legacy.quarterlyLike billingType then Qmax p (35 / 3)
     else p.
Proof.
  unfold Legacy.applyMinimums.
  destruct (JS.strictEq billingType (JS.Str "annual")).
  - apply floor_or_premium; reflexivity.
  - destruct (Legacy.quarterlyLike billingType); [|reflexivity].
    apply floor_or_premium; reflexivity.
Qed.

Lemma annual_is_not_quarterlyLike (billingType : JS.value) :
  JS.strictEq billingType (JS.Str "annual") = true ->
  Legacy.quarterlyLike billingType = false.
Proof.
  intro H. apply strictEq_Str_true in H. subst. reflexivity.
Qed.

(** X14.  A flat-rate quote for a non-zero employee count never displays less
    than the minimum of its billing option, whatever the counts and
    selections: at least 125 for the year under annual billing, and more than
    the minimum of 35 for the quarter under quarterly or quarterly-payroll
    billing, where the installment fee comes on top of the floor. *)
Theorem legacy_quote_displays_at_least_the_minimum (fd : FormData.t) :
  ~ statedHeadcountOf fd == 0 ->
  (JS.strictEq (billingOf fd) (JS.Str "annual") = true ->
   Legacy.billingPeriod (Legacy.calculateQuote fd) = "year"
   /\ 125 <= Legacy.displayAmount (Legacy.calculateQuote fd))
  /\ (Legacy.quarterlyLike (billingOf fd) = true ->
      Legacy.billingPeriod (Legacy.calculateQuote fd) = "quarter"
      /\ 35 < Legacy.displayAmount (Legacy.calculateQuote fd)).
Proof.
  intro Hn. rewrite (legacy_quote_nonzero fd Hn). cbv zeta.
  cbn [Legacy.billingPeriod Legacy.displayAmount].
  set (lines := legacyBaseOf fd + legacyRidersOf fd + legacyOptionalOf fd).
  assert (C := legacy_applyMinimums_cases lines (billingOf fd)).
  unfold Legacy.addBillingFees.
  split; intro E.
  - rewrite (annual_is_not_quarterlyLike _ E). split; [reflexivity|].
    rewrite E in C. rewrite C.
    assert (M := Q.le_max_r lines (125 / 12)).
    apply Qle_trans with (125 / 12 * 12); [discriminate|].
    apply Qmult_le_compat_r; [exact M|discriminate].
  - rewrite E. split; [reflexivity|].
    assert (M : 35 / 3 <= Legacy.applyMinimums lines (billingOf fd)).
    { rewrite C. rewrite E.
      destruct (JS.strictEq (billingOf fd) (JS.Str "annual")) eqn:A.
      - rewrite (annual_is_not_quarterlyLike _ A) in E. discriminate E.
      - apply Q.le_max_r. }
    apply Qlt_le_trans with ((35 / 3 + Legacy.PRICING.quarterlyFee / 3) * 3);
      [reflexivity|].
    apply Qmult_le_compat_r; [|discriminate].
    apply Qplus_le_l. exact M.
Qed.

Lemma legacy_quote_displays_at_least_the_minimum_witness :
  Legacy.billingPeriod (Legacy.calculateQuote legacyQuarterlyForm) = "quarter"
  /\ 35 < Legacy.displayAmount (Legacy.calculateQuote legacyQuarterlyForm).
Proof.
  destruct (legacy_quote_displays_at_least_the_minimum legacyQuarterlyForm) as [_ H].
  - intro H. vm_compute in H. discriminate H.
  - apply H. reflexivity.
Defined.

(** X15.  In a flat-rate quote for a non-zero employee count under quarterly
    or quarterly-payroll billing the three lines of the breakdown add up to
    less than [totalCost]: the installment fee, and the floor when it
    applies, are part of [totalCost] and of no line.  [totalCost] is
    [displayAmount]. *)
Theorem legacy_breakdown_omits_quarterly_fee (fd : FormData.t) :
  ~ statedHeadcountOf fd == 0 ->
  Legacy.quarterlyLike (billingOf fd) = true ->
  Legacy.Breakdown.basePremium (Legacy.breakdown (Legacy.calculateQuote fd))
  + Legacy.Breakdown.ridersCost (Legacy.breakdown (Legacy.calculateQuote fd))
  + Legacy.Breakdown.optionalCost (Legacy.breakdown (Legacy.calculateQuote fd))
  < Legacy.Breakdown.totalCost (Legacy.breakdown (Legacy.calculateQuote fd))
  /\ Legacy.Breakdown.totalCost (Legacy.breakdown (Legacy.calculateQuote fd))
     = Legacy.displayAmount (Legacy.calculateQuote fd).
Proof.
  intros Hn Hq. rewrite (legacy_quote_nonzero fd Hn). cbv zeta.
  cbn [Legacy.breakdown Legacy.Breakdown.basePremium Legacy.Breakdown.ridersCost
       Legacy.Breakdown.optionalCost Legacy.Breakdown.totalCost Legacy.displayAmount].
  split; [|reflexivity].
  set (lines := legacyBaseOf fd + legacyRidersOf fd + legacyOptionalOf fd).
  assert (L : lines <= Legacy.applyMinimums lines (billingOf fd)).
  { rewrite legacy_applyMinimums_cases.
    destruct (JS.strictEq (billingOf fd) (JS.Str "annual")); [apply Q.le_max_l|].
    destruct (Legacy.quarterlyLike (billingOf fd)); [apply Q.le_max_l|apply Qle_refl]. }
  unfold Legacy.addBillingFees.
  generalize dependent (Legacy.applyMinimums lines (billingOf fd)). intros a L.
  unfold lines in *. clear lines.
  generalize dependent (legacyBaseOf fd). intros b.
  generalize dependent (legacyRidersOf fd). intros r.
  generalize dependent (legacyOptionalOf fd). intros o L.
  rewrite Hq.
  assert (F : Legacy.PRICING.quarterlyFee / 3 == 5) by reflexivity.
  rewrite F. lra.
Qed.

Lemma legacy_breakdown_omits_quarterly_fee_witness :
  Legacy.Breakdown.basePremium (Legacy.breakdown (Legacy.calculateQuote legacyQuarterlyForm))
  == 450
  /\ Legacy.Breakdown.totalCost (Legacy.breakdown (Legacy.calculateQuote legacyQuarterlyForm))
     == 465
  /\ Legacy.Breakdown.basePremium (Legacy.breakdown (Legacy.calculateQuote legacyQuarterlyForm))
     + Legacy.Breakdown.ridersCost (Legacy.breakdown (Legacy.calculateQuote legacyQuarterlyForm))
     + Legacy.Breakdown.optionalCost
         (Legacy.breakdown (Legacy.calculateQuote legacyQuarterlyForm))
     < Legacy.Breakdown.totalCost (Legacy.breakdown (Legacy.calculateQuote legacyQuarterlyForm)).
Proof.
  split; [vm_compute; reflexivity|]. split; [vm_compute; reflexivity|].
  apply (legacy_breakdown_omits_quarterly_fee legacyQuarterlyForm).
  - intro H. vm_compute in H. discriminate H.
  - reflexivity.
Defined.

(** X16.  Under quarterly-payroll billing with a positive payroll the base
    premium of the flat-rate calculator is half a percent of the payroll: two
    forms with the same payroll get the same base premium, whatever their
    benefit tiers and (non-zero) employee counts. *)
Theorem legacy_payroll_rating_ignores_tier_and_headcount (fd1 fd2 : FormData.t) :
  billingOf fd1 = JS.Str "quarterlyPayroll" ->
  billingOf fd2 = JS.Str "quarterlyPayroll" ->
  FormData.totalPayroll fd1 = FormData.totalPayroll fd2 ->
  0 < JS.orZero (JS.parseFloat (FormData.totalPayroll fd1)) ->
  ~ statedHeadcountOf fd1 == 0 ->
  ~ statedHeadcountOf fd2 == 0 ->
  Legacy.baseMonthlyPremium (Legacy.calculateQuote fd1)
  = Legacy.baseMonthlyPremium (Legacy.calculateQuote fd2)
  /\ Legacy.baseMonthlyPremium (Legacy.calculateQuote fd1)
     == JS.orZero (JS.parseFloat (FormData.totalPayroll fd1)) * 0.005.
Proof.
  intros B1 B2 P Hp H1 H2.
  rewrite (legacy_quote_nonzero fd1 H1), (legacy_quote_nonzero fd2 H2). cbv zeta.
  cbn [Legacy.baseMonthlyPremium].
  unfold legacyBaseOf, Legacy.calculateBasePremium. rewrite B1, B2, <- P.
  cbn [JS.strictEq String.eqb Ascii.eqb Bool.eqb andb].
  apply ltb_lt in Hp. rewrite Hp. split; reflexivity.
Qed.

(** Two payroll-rated forms: 3 statutory employees, 40 employees on the
    richest tier; the same monthly payroll of 20,000. *)
Definition payrollFormSmall : FormData.t :=
  FormData.mk JS.Undefined JS.Undefined (JS.Str "3") (JS.Str "statutory")
              (JS.Str "quarterlyPayroll") JS.Undefined JS.Undefined (JS.Str "20000")
              JS.Undefined JS.Undefined JS.Undefined JS.Undefined JS.Undefined
              JS.Undefined JS.Undefined.

Definition payrollFormLarge : FormData.t :=
  FormData.mk JS.Undefined JS.Undefined (JS.Str "40") (JS.Str "enriched5x")
              (JS.Str "quarterlyPayroll") JS.Undefined JS.Undefined (JS.Str "20000")
              JS.Undefined JS.Undefined JS.Undefined JS.Undefined JS.Undefined
              JS.Undefined JS.Undefined.

Lemma legacy_payroll_rating_ignores_tier_and_headcount_witness :
  Legacy.baseMonthlyPremium (Legacy.calculateQuote payrollFormSmall)
  = Legacy.baseMonthlyPremium (Legacy.calculateQuote payrollFormLarge)
  /\ Legacy.baseMonthlyPremium (Legacy.calculateQuote payrollFormSmall) == 100.
Proof.
  destruct (legacy_payroll_rating_ignores_tier_and_headcount
              payrollFormSmall payrollFormLarge) as [H1 H2];
    try reflexivity.
  - intro H. vm_compute in H. discriminate H.
  - intro H. vm_compute in H. discriminate H.
  - split; [exact H1|]. rewrite H2. vm_compute. reflexivity.
Defined.

(** ** Descriptions of the tiers *)

(** X17.  Whatever value is passed as tier, a description that
    [getBenefitDescription] returns states as weekly maximum 170 times the
    multiplier the flat-rate calculator gives that tier, and a value that is
    no tier code is described as the statutory tier.  A description is
    returned unless the tier is a name inherited from [Object.prototype]. *)
Theorem description_maximum_matches_multiplier (benefitTier : JS.value) :
  match NY.getBenefitDescription benefitTier with
  | Own d =>
      NY.Description.maxWeekly d == 170 * Legacy.getDBLMultiplier benefitTier
      /\ (Own d = NY.getBenefitDescription (JS.Str "statutory")
          \/ exists tier, benefitTier = JS.Str tier /\ In tier tierCodes)
  | Inherited =>
      exists tier, benefitTier = JS.Str tier /\ In tier Object_prototype_keys
  | Missing => False
  end.
Proof.
  destruct benefitTier as [| |[|]|q|s];
    try (split; [vm_compute; reflexivity|left; reflexivity]).
  unfold NY.getBenefitDescription, getProperty, propertyKey, Legacy.getDBLMultiplier.
  rewrite !strictEq_Str. unfold NY.descriptions. cbn [assoc].
  repeat match goal with
  | |- context [(s =? ?c)%string] =>
      destruct (String.eqb_spec s c) as [->|_];
      [split; [vm_compute; reflexivity|
               right; eexists; split; [reflexivity|unfold tierCodes; simpl; tauto]]|]
  end.
  destruct (memString s Object_prototype_keys) eqn:M.
  - exists s. split; [reflexivity|].
    unfold memString in M. apply existsb_exists in M.
    destruct M as [k [I E]]. apply String.eqb_eq in E. subst k. exact I.
  - cbn [assoc String.eqb Ascii.eqb Bool.eqb].
    split; [vm_compute; reflexivity|left; reflexivity].
Qed.

(** X18.  Every description that [getBenefitDescription] returns is consistent
    in itself: its text names the weekly maximum it carries, and its maximum
    with the hospital rider, absent for the statutory tier only, is 170 above
    the weekly maximum. *)
Theorem descriptions_are_consistent (benefitTier : JS.value) (d : NY.Description.t) :
  NY.getBenefitDescription benefitTier = Own d ->
  NY.Description.description d
  = "50% of salary up to $"
    ++ JS.digitsOf (Z.to_N (Qfloor (NY.Description.maxWeekly d))) ++ "/week"
  /\ match NY.Description.maxWithHospital d with
     | Some m => m == NY.Description.maxWeekly d + 170
     | None => NY.Description.name d = "Statutory DBL"
     end.
Proof.
  assert (T : Forall (fun d =>
                NY.Description.description d
                = "50% of salary up to $"
                  ++ JS.digitsOf (Z.to_N (Qfloor (NY.Description.maxWeekly d))) ++ "/week"
                /\ match NY.Description.maxWithHospital d with
                   | Some m => m == NY.Description.maxWeekly d + 170
                   | None => NY.Description.name d = "Statutory DBL"
                   end)
              (map snd NY.descriptions)).
  { unfold NY.descriptions. simpl map. repeat constructor. }
  assert (O : forall v d', getProperty NY.descriptions v = Own d' ->
                           In d' (map snd NY.descriptions)).
  { intros v d'. unfold getProperty.
    destruct (propertyKey v) as [k|]; [|discriminate].
    destruct (assoc k NY.descriptions) as [a|] eqn:E.
    - intro H. inversion H; subst. exact (assoc_in _ _ _ E).
    - destruct (memString k Object_prototype_keys); discriminate. }
  unfold NY.getBenefitDescription. intro H.
  apply (proj1 (Forall_forall _ _) T).
  destruct (getProperty NY.descriptions benefitTier) as [d'| |] eqn:G.
  - inversion H; subst. exact (O _ _ G).
  - discriminate H.
  - exact (O _ _ H).
Qed.

Lemma descriptions_are_consistent_witness :
  exists d,
    NY.getBenefitDescription (JS.Str "enriched3x") = Own d
    /\ NY.Description.description d = "50% of salary up to $510/week"
    /\ NY.Description.maxWithHospital d = Some 680.
Proof.
  eexists. split; [reflexivity|].
  destruct (descriptions_are_consistent (JS.Str "enriched3x") _ eq_refl) as [H _].
  split; [exact H|reflexivity].
Defined.

(** ** Currency formatting *)

(** Digits written in groups of three. *)

Fixpoint allDigits (s : string) : bool :=
  match s with
  | String c r => JS.isDigit c && allDigits r
  | EmptyString => true
  end.

(** A string without its commas. *)
Fixpoint dropCommas (s : string) : string :=
  match s with
  | String c r => if Ascii.eqb c "," then dropCommas r else String c (dropCommas r)
  | EmptyString => EmptyString
  end.

(** Reads any number of groups made of a comma and exactly three digits, up
    to the end of the string, and gives back the digits. *)
Fixpoint commaGroups (s : string) : option string :=
  match s with
  | EmptyString => Some EmptyString
  | String "," (String a (String b (String c r))) =>
      if JS.isDigit a && JS.isDigit b && JS.isDigit c
      then option_map (fun x => String a (String b (String c x))) (commaGroups r)
      else None
  | _ => None
  end.

(** Reads a number written with thousands separators, one to three digits
    and then groups of a comma and three digits, and gives back its digits;
    [None] when the string is not written that way. *)
Definition ungroup (s : string) : option string :=
  match s with
  | String a r1 =>
      if JS.isDigit a then
        match r1 with
        | String b r2 =>
            if JS.isDigit b then
              match r2 with
              | String c r3 =>
                  if JS.isDigit c
                  then option_map (fun x => String a (String b (String c x)))
                                  (commaGroups r3)
                  else option_map (fun x => String a (String b x)) (commaGroups r2)
              | EmptyString => Some s
              end
            else option_map (String a) (commaGroups r1)
        | EmptyString => Some s
        end
      else None
  | EmptyString => None
  end.

(** What the replacement does to a run of digits: a comma in front of every
    digit that has a digit before it ([w]) and a multiple of three digits from
    itself to the end of the run. *)
Fixpoint grouped (w : bool) (ds : string) : string :=
  match ds with
  | String c r =>
      let rest := String c (grouped true r) in
      if w && (String.length ds mod 3 =? 0)%nat then String "," rest else rest
  | EmptyString => EmptyString
  end.

Lemma digit_is_word (c : ascii) : JS.isDigit c = true -> JS.isWordChar c = true.
Proof.
  unfold JS.isDigit, JS.isWordChar. cbv zeta. intros ->. reflexivity.
Qed.

Lemma digitRun_of_digits (ds t : string) :
  allDigits ds = true -> JS.digitRun t = O ->
  JS.digitRun (ds ++ t) = String.length ds.
Proof.
  intros H Ht. induction ds as [|c r IH]; simpl in *; [exact Ht|].
  apply andb_true_iff in H. destruct H as [Hc Hr].
  rewrite Hc. f_equal. apply IH. exact Hr.
Qed.

Lemma multiple_of_three_is_at_least_three (n : nat) :
  ((3 <=? S n) && (S n mod 3 =? 0) = (S n mod 3 =? 0))%nat.
Proof.
  destruct n as [|[|n]]; try reflexivity.
Qed.

Lemma replace_digit_run (ds : string) :
  allDigits ds = true ->
  forall (prev : option ascii) (t : string),
    JS.digitRun t = O ->
    exists prev',
      JS.replaceThousands prev (ds ++ t)
      = grouped (JS.wordBefore prev) ds ++ JS.replaceThousands prev' t.
Proof.
  induction ds as [|c r IH]; intros H prev t Ht.
  - exists prev. reflexivity.
  - simpl in H. apply andb_true_iff in H. destruct H as [Hc Hr].
    destruct (IH Hr (Some c) t Ht) as [prev' E].
    exists prev'.
    change (String c r ++ t) with (String c (r ++ t)).
    cbn [JS.replaceThousands grouped]. cbv zeta.
    rewrite E. cbn [JS.wordBefore]. rewrite (digit_is_word c Hc).
    assert (G : JS.groupsOfThreeAhead (String c (r ++ t))
                = (String.length (String c r) mod 3 =? 0)%nat).
    { unfold JS.groupsOfThreeAhead. cbn [JS.digitRun String.length]. rewrite Hc.
      rewrite (digitRun_of_digits r t Hr Ht).
      apply multiple_of_three_is_at_least_three. }
    rewrite G.
    destruct (JS.wordBefore prev); cbn [Bool.eqb andb];
      destruct (String.length (String c r) mod 3 =? 0)%nat; reflexivity.
Qed.

Lemma replace_decimals (prev : option ascii) (d1 d2 : ascii) :
  JS.replaceThousands prev (String "." (String d1 (String d2 "")))
  = String "." (String d1 (String d2 "")).
Proof.
  cbn [JS.replaceThousands]. cbv zeta.
  unfold JS.groupsOfThreeAhead. cbn [JS.digitRun].
  change (JS.isDigit ".") with false. cbv iota.
  destruct (JS.isDigit d1), (JS.isDigit d2);
    cbn [Nat.leb Nat.modulo Nat.eqb andb]; rewrite ?andb_false_r; reflexivity.
Qed.

Lemma grouped_three (a b c : ascii) (r : string) (k : nat) :
  String.length r = (k * 3)%nat ->
  grouped true (String a (String b (String c r)))
  = String "," (String a (String b (String c (grouped true r)))).
Proof.
  intro L. cbn [grouped]. cbv zeta. cbn [String.length]. rewrite L.
  replace (S (S (S (k * 3)))) with (0 + (S k) * 3)%nat by lia.
  replace (S (S (k * 3))) with (2 + k * 3)%nat by lia.
  replace (S (k * 3)) with (1 + k * 3)%nat by lia.
  rewrite !Nat.Div0.mod_add. reflexivity.
Qed.

Lemma commaGroups_grouped (k : nat) :
  forall r, String.length r = (k * 3)%nat -> allDigits r = true ->
            commaGroups (grouped true r) = Some r.
Proof.
  induction k as [|k IH]; intros r L D.
  - destruct r; [reflexivity|discriminate L].
  - destruct r as [|a [|b [|c r]]]; try discriminate L.
    simpl in L. assert (L' : String.length r = (k * 3)%nat) by lia.
    simpl in D. apply andb_true_iff in D. destruct D as [Da D].
    apply andb_true_iff in D. destruct D as [Db D].
    apply andb_true_iff in D. destruct D as [Dc D].
    rewrite (grouped_three a b c r k L'). cbn [commaGroups].
    rewrite Da, Db, Dc, (IH r L' D). reflexivity.
Qed.

Lemma grouped_starts_with_comma (r : string) (k : nat) :
  String.length r = (k * 3)%nat ->
  grouped true r = EmptyString \/ exists r', grouped true r = String "," r'.
Proof.
  intro L. destruct r as [|a [|b [|c r]]].
  - left. reflexivity.
  - simpl in L. lia.
  - simpl in L. lia.
  - right. destruct k as [|k]; [discriminate L|].
    simpl in L. assert (L' : String.length r = (k * 3)%nat) by lia.
    rewrite (grouped_three a b c r k L'). eexists. reflexivity.
Qed.

(** The recognizer reads back what the replacement makes of a run of digits
    that starts the number. *)
Lemma ungroup_grouped (ds : string) :
  allDigits ds = true -> ds <> EmptyString ->
  ungroup (grouped false ds) = Some ds.
Proof.
  intros D N.
  assert (S3 : exists j k, (String.length ds = j + k * 3 /\ 1 <= j <= 3)%nat).
  { destruct ds as [|c r]; [contradiction|]. cbn [String.length].
    exists (S (String.length r mod 3)), (String.length r / 3)%nat.
    assert (M := Nat.mod_upper_bound (String.length r) 3).
    assert (E := Nat.div_mod_eq (String.length r) 3). lia. }
  destruct S3 as (j & k & L & Hj).
  assert (Cj : j = 1%nat \/ j = 2%nat \/ j = 3%nat) by lia.
  destruct Cj as [->|[->| ->]].
  - destruct ds as [|a r]; [contradiction|].
    simpl in L. assert (Lr : String.length r = (k * 3)%nat) by lia.
    simpl in D. apply andb_true_iff in D. destruct D as [Da Dr].
    cbn [grouped andb]. cbv zeta. cbn [ungroup]. rewrite Da.
    assert (C := commaGroups_grouped k r Lr Dr).
    destruct (grouped_starts_with_comma r k Lr) as [E|[r' E]].
    + rewrite E in *. destruct r; [reflexivity|].
      simpl in C. discriminate C.
    + rewrite E in *. change (JS.isDigit ",") with false. cbv iota.
      rewrite C. reflexivity.
  - destruct ds as [|a [|b r]]; try (simpl in L; lia).
    simpl in L. assert (Lr : String.length r = (k * 3)%nat) by lia.
    simpl in D. apply andb_true_iff in D. destruct D as [Da D].
    apply andb_true_iff in D. destruct D as [Db Dr].
    cbn [grouped andb]. cbv zeta. cbn [String.length]. rewrite Lr.
    replace (S (k * 3)) with (1 + k * 3)%nat by lia.
    rewrite Nat.Div0.mod_add. cbn [Nat.modulo Nat.eqb Nat.divmod fst snd Nat.sub].
    cbn [ungroup]. rewrite Da, Db.
    assert (C := commaGroups_grouped k r Lr Dr).
    destruct (grouped_starts_with_comma r k Lr) as [E|[r' E]].
    + rewrite E in *. destruct r; [reflexivity|].
      simpl in C. discriminate C.
    + rewrite E in *. change (JS.isDigit ",") with false. cbv iota.
      rewrite C. reflexivity.
  - destruct ds as [|a [|b [|c r]]]; try (simpl in L; lia).
    simpl in L. assert (Lr : String.length r = (k * 3)%nat) by lia.
    simpl in D. apply andb_true_iff in D. destruct D as [Da D].
    apply andb_true_iff in D. destruct D as [Db D].
    apply andb_true_iff in D. destruct D as [Dc Dr].
    cbn [grouped andb]. cbv zeta. cbn [String.length]. rewrite Lr.
    replace (S (S (k * 3))) with (2 + k * 3)%nat by lia.
    replace (S (k * 3)) with (1 + k * 3)%nat by lia.
    rewrite !Nat.Div0.mod_add. cbn [Nat.modulo Nat.eqb Nat.divmod fst snd Nat.sub].
    cbn [ungroup]. rewrite Da, Db, Dc.
    rewrite (commaGroups_grouped k r Lr Dr). reflexivity.
Qed.

Lemma string_of_uint_digits (d : Decimal.uint) :
  allDigits (NilEmpty.string_of_uint d) = true.
Proof.
  induction d; simpl; try reflexivity; exact IHd.
Qed.

Lemma digitsOf_digits (n : N) :
  allDigits (JS.digitsOf n) = true /\ JS.digitsOf n <> EmptyString.
Proof.
  split; [apply string_of_uint_digits|].
  unfold JS.digitsOf. destruct n as [|p]; [discriminate|].
  cbn [N.to_uint]. assert (H := DecimalPos.Unsigned.to_uint_nonnil p).
  destruct (Pos.to_uint p); try discriminate. contradiction.
Qed.

(** X19.  For every amount below 1e21 in absolute value, [formatCurrency]
    (the same in both files) prints a dollar sign, a minus sign after it when
    the amount is negative, the integer part of the amount rounded to cents
    with a comma between groups of three digits counted from the right, a
    point, and the two digits of the cents. *)
Theorem formatCurrency_groups_thousands (amount : Q) :
  Qabs amount < 10 ^ 21 ->
  exists g,
    NY.formatCurrency amount
    = Some ("$" ++ (if JS.ltb amount 0 then "-" else "") ++ g ++ "."
            ++ String (JS.digitChar
                         ((Z.to_N (Qfloor (Qabs amount * 100 + (1 # 2))) mod 100) / 10))
                 (String (JS.digitChar
                            (Z.to_N (Qfloor (Qabs amount * 100 + (1 # 2))) mod 10)) ""))
    /\ ungroup g
       = Some (JS.digitsOf (Z.to_N (Qfloor (Qabs amount * 100 + (1 # 2))) / 100))
    /\ Legacy.formatCurrency amount = NY.formatCurrency amount.
Proof.
  intro B.
  assert (E : Qle_bool (10 ^ 21) (Qabs amount) = false).
  { destruct (Qle_bool (10 ^ 21) (Qabs amount)) eqn:E; [|reflexivity].
    apply Qle_bool_iff in E. exfalso. apply (Qlt_not_le _ _ B E). }
  unfold NY.formatCurrency, Legacy.formatCurrency, JS.toFixed2. rewrite E. cbv zeta.
  set (n := Z.to_N (Qfloor (Qabs amount * 100 + (1 # 2)))).
  set (d1 := JS.digitChar ((n mod 100) / 10)). set (d2 := JS.digitChar (n mod 10)).
  destruct (digitsOf_digits (n / 100)) as [D N].
  destruct (replace_digit_run (JS.digitsOf (n / 100)) D) with
    (prev := @None ascii) (t := String "." (String d1 (String d2 ""))) as [p1 R1];
    [reflexivity|].
  destruct (replace_digit_run (JS.digitsOf (n / 100)) D) with
    (prev := Some "-"%char) (t := String "." (String d1 (String d2 ""))) as [p2 R2];
    [reflexivity|].
  rewrite replace_decimals in R1, R2.
  exists (grouped false (JS.digitsOf (n / 100))).
  split; [|split; [apply ungroup_grouped; assumption|reflexivity]].
  destruct (JS.ltb amount 0).
  - change ("-" ++ JS.digitsOf (n / 100) ++ "." ++ String d1 (String d2 ""))
      with (String "-" (JS.digitsOf (n / 100) ++ "." ++ String d1 (String d2 ""))).
    cbn [JS.replaceThousands]. cbv zeta.
    change (JS.groupsOfThreeAhead
              (String "-" (JS.digitsOf (n / 100) ++ "." ++ String d1 (String d2 ""))))
      with false.
    rewrite andb_false_r.
    change ("." ++ String d1 (String d2 "")) with (String "." (String d1 (String d2 ""))).
    rewrite R2. reflexivity.
  - change ("" ++ JS.digitsOf (n / 100) ++ "." ++ String d1 (String d2 ""))
      with (JS.digitsOf (n / 100) ++ String "." (String d1 (String d2 ""))).
    rewrite R1. reflexivity.
Qed.

Lemma formatCurrency_groups_thousands_witness :
  NY.formatCurrency (-1234567.891) = Some "$-1,234,567.89"
  /\ ungroup "1,234,567" = Some "1234567"
  /\ exists g,
       NY.formatCurrency 1234567.891
       = Some ("$" ++ (if JS.ltb 1234567.891 0 then "-" else "") ++ g ++ "."
               ++ String (JS.digitChar
                            ((Z.to_N (Qfloor (Qabs 1234567.891 * 100 + (1 # 2))) mod 100)
                             / 10))
                    (String (JS.digitChar
                               (Z.to_N (Qfloor (Qabs 1234567.891 * 100 + (1 # 2))) mod 10))
                            ""))
       /\ ungroup g
          = Some (JS.digitsOf (Z.to_N (Qfloor (Qabs 1234567.891 * 100 + (1 # 2))) / 100)).
Proof.
  split; [vm_compute; reflexivity|]. split; [vm_compute; reflexivity|].
  destruct (formatCurrency_groups_thousands 1234567.891) as (g & H1 & H2 & _).
  - reflexivity.
  - exists g. split; assumption.
Defined.

(** X20.  The replacement in [formatCurrency] only ever adds commas: taking
    the commas out of its result gives the same string as taking them out of
    its argument, whatever the argument is. *)
Theorem replaceThousands_only_adds_commas (prev : option ascii) (s : string) :
  dropCommas (JS.replaceThousands prev s) = dropCommas s.
Proof.
  revert prev. induction s as [|c r IH]; intro prev; [reflexivity|].
  cbn [JS.replaceThousands]. cbv zeta.
  destruct (Bool.eqb (JS.wordBefore prev) (JS.isWordChar c)
            && JS.groupsOfThreeAhead (String c r)).
  - change (dropCommas (String "," (String c (JS.replaceThousands (Some c) r))))
      with (dropCommas (String c (JS.replaceThousands (Some c) r))).
    cbn [dropCommas]. rewrite IH. reflexivity.
  - cbn [dropCommas]. rewrite IH. reflexivity.
Qed.

(** ** What the calculators read off the form *)

(** X21.  The rate-card quote depends on eleven properties of the form only:
    two forms that agree on them get the same result, so [annualPayroll]
    (parsed but never used), [totalEmployees], [totalPayroll] and [addBenefit]
    have no influence on it. *)
Theorem ny_quote_reads_eleven_properties (fd fd' : FormData.t) :
  FormData.maleEmployees fd = FormData.maleEmployees fd' ->
  FormData.femaleEmployees fd = FormData.femaleEmployees fd' ->
  FormData.dblBenefits fd = FormData.dblBenefits fd' ->
  FormData.billingOption fd = FormData.billingOption fd' ->
  FormData.inHospitalRider fd = FormData.inHospitalRider fd' ->
  FormData.employeesOverNYSAWW fd = FormData.employeesOverNYSAWW fd' ->
  FormData.payrollBelowNYSAWW fd = FormData.payrollBelowNYSAWW fd' ->
  FormData.termLife15k fd = FormData.termLife15k fd' ->
  FormData.eap fd = FormData.eap fd' ->
  FormData.nurseHelpline fd = FormData.nurseHelpline fd' ->
  FormData.adddBenefit fd = FormData.adddBenefit fd' ->
  NY.calculateQuote fd = NY.calculateQuote fd'.
Proof.
  destruct fd, fd'. cbn [FormData.maleEmployees FormData.femaleEmployees
    FormData.dblBenefits FormData.billingOption FormData.inHospitalRider
    FormData.employeesOverNYSAWW FormData.payrollBelowNYSAWW FormData.termLife15k
    FormData.eap FormData.nurseHelpline FormData.adddBenefit].
  intros. subst. reflexivity.
Qed.

(** The plain form with a payroll, a headcount and the other AD&D property
    filled in. *)
Definition plainFormWithExtras : FormData.t :=
  FormData.mk (JS.Str "3") (JS.Str "2") (JS.Str "50") (JS.Str "statutory")
              (JS.Str "annual") JS.Undefined (JS.Str "750000") (JS.Str "62500")
              (JS.Str "1") (JS.Str "100000") JS.Undefined JS.Undefined JS.Undefined
              JS.Undefined (JS.Str "100000").

Lemma ny_quote_reads_eleven_properties_witness :
  NY.calculateQuote plainForm = NY.calculateQuote plainFormWithExtras.
Proof.
  apply (ny_quote_reads_eleven_properties plainForm plainFormWithExtras); reflexivity.
Defined.

(** X22.  The flat-rate quote depends on nine properties of the form only; in
    particular it takes the AD&D choice from [addBenefit] and ignores
    [adddBenefit], the property the rate-card engine reads, as well as the
    gender counts. *)
Theorem legacy_quote_reads_nine_properties (fd fd' : FormData.t) :
  FormData.totalEmployees fd = FormData.totalEmployees fd' ->
  FormData.dblBenefits fd = FormData.dblBenefits fd' ->
  FormData.billingOption fd = FormData.billingOption fd' ->
  FormData.totalPayroll fd = FormData.totalPayroll fd' ->
  FormData.inHospitalRider fd = FormData.inHospitalRider fd' ->
  FormData.addBenefit fd = FormData.addBenefit fd' ->
  FormData.termLife15k fd = FormData.termLife15k fd' ->
  FormData.eap fd = FormData.eap fd' ->
  FormData.nurseHelpline fd = FormData.nurseHelpline fd' ->
  Legacy.calculateQuote fd = Legacy.calculateQuote fd'.
Proof.
  destruct fd, fd'. cbn [FormData.totalEmployees FormData.dblBenefits
    FormData.billingOption FormData.totalPayroll FormData.inHospitalRider
    FormData.addBenefit FormData.termLife15k FormData.eap FormData.nurseHelpline].
  intros. subst. reflexivity.
Qed.

(** Three employees quoted by the flat-rate calculator, once without and once
    with the AD&D choice stored where the rate-card engine looks for it. *)
Definition legacyFormWithAddd : FormData.t :=
  FormData.mk (JS.Str "2") (JS.Str "1") (JS.Str "3") (JS.Str "statutory")
              (JS.Str "quarterly") JS.Undefined JS.Undefined JS.Undefined JS.Undefined
              JS.Undefined JS.Undefined JS.Undefined JS.Undefined (JS.Str "100000")
              JS.Undefined.

Lemma legacy_quote_reads_nine_properties_witness :
  Legacy.calculateQuote legacyQuarterlyForm = Legacy.calculateQuote legacyFormWithAddd
  /\ Legacy.ridersMonthly (Legacy.calculateQuote legacyFormWithAddd) = 0.
Proof.
  split; [|reflexivity].
  apply (legacy_quote_reads_nine_properties legacyQuarterlyForm legacyFormWithAddd);
    reflexivity.
Defined.

(** X23.  [calculateQuoteWithEstimate] overwrites the gender counts of the
    form: whatever [maleEmployees] and [femaleEmployees] hold, the estimate is
    the same. *)
Theorem estimate_ignores_gender_counts
    (fd : FormData.t) (male female : JS.value) (maleRatioArg : option Q) :
  NY.calculateQuoteWithEstimate (FormData.withCounts fd male female) maleRatioArg
  = NY.calculateQuoteWithEstimate fd maleRatioArg.
Proof.
  destruct fd. reflexivity.
Qed.

(** X24.  A count that [parseInt] cannot read (a missing property, a checkbox
    state, a string that does not start with a number) counts as 0: the quote
    is the one of the form with the number 0 in its place. *)
Theorem unreadable_counts_are_zero (fd : FormData.t) (male female : JS.value) :
  JS.parseInt male = None -> JS.parseInt female = None ->
  NY.calculateQuote (FormData.withCounts fd male (FormData.femaleEmployees fd))
  = NY.calculateQuote (FormData.withCounts fd (JS.Num 0) (FormData.femaleEmployees fd))
  /\ NY.calculateQuote (FormData.withCounts fd (FormData.maleEmployees fd) female)
     = NY.calculateQuote (FormData.withCounts fd (FormData.maleEmployees fd) (JS.Num 0))
  /\ NY.calculateQuote (FormData.withCounts fd male female)
     = ([], Normal (NY.mkQuote 0 0 0 0 0 "year" None (NY.Breakdown.mk 0 0 0 0)
                               None None None None)).
Proof.
  intros Hm Hf. destruct fd. unfold NY.calculateQuote, FormData.withCounts.
  cbn [FormData.maleEmployees FormData.femaleEmployees FormData.dblBenefits
       FormData.billingOption FormData.inHospitalRider FormData.annualPayroll
       FormData.employeesOverNYSAWW FormData.payrollBelowNYSAWW FormData.termLife15k
       FormData.eap FormData.nurseHelpline FormData.adddBenefit].
  rewrite Hm, Hf. repeat split.
Qed.

Lemma unreadable_counts_are_zero_witness :
  NY.calculateQuote (FormData.withCounts plainForm (JS.Str "three") (JS.Str "2"))
  = NY.calculateQuote (FormData.withCounts plainForm (JS.Num 0) (JS.Str "2"))
  /\ NY.calculateQuote (FormData.withCounts plainForm (JS.Str "three") JS.Undefined)
     = ([], Normal (NY.mkQuote 0 0 0 0 0 "year" None (NY.Breakdown.mk 0 0 0 0)
                               None None None None)).
Proof.
  destruct (unreadable_counts_are_zero plainForm (JS.Str "three") JS.Undefined)
    as (H1 & _ & H3); try reflexivity.
  split; [exact H1|exact H3].
Defined.
